(** * WellCare hospital API: the controller and its two Mongoose models

    A shallow embedding of [controller/hospitalController.js],
    [model/patientModel.js], [model/testsModel.js] and the route table of
    [routes/hospitalRoutes.js].

    - JavaScript numbers are IEEE 754 binary64 values, taken from the
      standard library's [SpecFloat] ([prec = 53], [emax = 1024]).
    - JavaScript strings are [string]s; a character stands for the code unit
      of the same number (0 to 255).
    - The two MongoDB collections are lists of documents in natural
      (insertion) order; an [async] function is a state transformer over
      the database that either returns or throws. *)

From Stdlib Require Import ZArith List String Ascii Bool Lia DecimalString.
From Stdlib Require Import Sorting.Sorted Sorting.Permutation.
From Stdlib Require Import Floats.SpecFloat.
Import ListNotations.

Local Open Scope string_scope.
Local Open Scope Z_scope.
Local Open Scope list_scope.

(** ** JavaScript numbers and the [Number(string)] conversion *)

Module JS.

Definition number : Type := spec_float.

Definition prec : Z := 53.
Definition emax : Z := 1024.

Definition NaN : number := S754_nan.

(** A numeric literal of the source with an integer value, such as [180]. *)
Definition lit (z : Z) : number := binary_normalize prec emax z 0 false.

(** [x < y] and [x > y] on numbers: false as soon as one side is NaN. *)
Definition lt (x y : number) : bool := SFltb x y.
Definition gt (x y : number) : bool := SFltb y x.

(** [ToNumber] of a destructured array element: a missing element is
    [undefined], which converts to NaN. *)
Definition ToNumber (v : option number) : number :=
  match v with
  | Some n => n
  | None => NaN
  end.

(** *** StringToNumber (ECMA-262, 7.1.4.1.1) *)

Definition code (c : ascii) : Z := Z.of_N (N_of_ascii c).

(** TAB, LF, VT, FF, CR, SP and NBSP: the white space and line terminator
    code units below 256. *)
Definition StrWhiteSpaceChar (c : ascii) : bool :=
  let n := code c in
  ((9 <=? n) && (n <=? 13)) || (n =? 32) || (n =? 160).

Fixpoint trimStart (l : list ascii) : list ascii :=
  match l with
  | c :: r => if StrWhiteSpaceChar c then trimStart r else l
  | [] => []
  end.

Definition trim (l : list ascii) : list ascii :=
  rev (trimStart (rev (trimStart l))).

(** The value of a digit in the given radix, if the character is one. *)
Definition digit (radix : Z) (c : ascii) : option Z :=
  let n := code c in
  let v :=
    if (48 <=? n) && (n <=? 57) then Some (n - 48)
    else if (97 <=? n) && (n <=? 102) then Some (n - 87)
    else if (65 <=? n) && (n <=? 70) then Some (n - 55)
    else None in
  match v with
  | Some d => if d <? radix then Some d else None
  | None => None
  end.

(** The longest prefix of digits, as digit values, and what follows it. *)
Fixpoint scanDigits (radix : Z) (l : list ascii) : list Z * list ascii :=
  match l with
  | c :: r =>
      match digit radix c with
      | Some d => let '(ds, rest) := scanDigits radix r in (d :: ds, rest)
      | None => ([], l)
      end
  | [] => ([], [])
  end.

Definition digitsValue (radix : Z) (ds : list Z) : Z :=
  fold_left (fun acc d => acc * radix + d) ds 0.

(** Round a non-negative integer to the nearest binary64, ties to even. *)
Definition roundInteger (neg : bool) (m : Z) : number :=
  match m with
  | Zpos p => binary_round prec emax neg p 0
  | _ => S754_zero neg
  end.

(** Round [m * 10^e] ([m >= 0]) to the nearest binary64, ties to even. *)
Definition roundDecimal (neg : bool) (m e : Z) : number :=
  if m =? 0 then S754_zero neg
  else if 0 <=? e then roundInteger neg (m * 10 ^ e)
  else
    let '(q, e', loc) := SFdiv_core_binary prec emax m 0 (10 ^ (- e)) 0 in
    binary_round_aux prec emax neg q e' loc.

(** ExponentPart_opt followed by the end of the literal. *)
Definition ExponentPart (l : list ascii) : option Z :=
  match l with
  | [] => Some 0
  | c :: r =>
      if (Ascii.eqb c "e" || Ascii.eqb c "E")%bool then
        let '(neg, r') :=
          match r with
          | "+"%char :: r' => (false, r')
          | "-"%char :: r' => (true, r')
          | _ => (false, r)
          end in
        match scanDigits 10 r' with
        | (d :: ds, []) =>
            let v := digitsValue 10 (d :: ds) in
            Some (if neg then - v else v)
        | _ => None
        end
      else None
  end.

Definition Infinity : list ascii := list_ascii_of_string "Infinity".

Definition ascii_list_eqb (a b : list ascii) : bool :=
  String.eqb (string_of_list_ascii a) (string_of_list_ascii b).

(** StrUnsignedDecimalLiteral: [Infinity], [digits . digits? exp?],
    [. digits exp?] or [digits exp?]. *)
Definition StrUnsignedDecimalLiteral (neg : bool) (l : list ascii) : number :=
  if ascii_list_eqb l Infinity then S754_infinity neg
  else
    let '(ip, r1) := scanDigits 10 l in
    let '(fp, r2) :=
      match r1 with
      | "."%char :: r => scanDigits 10 r
      | _ => ([], r1)
      end in
    match ip ++ fp with
    | [] => NaN
    | ds =>
        match ExponentPart r2 with
        | Some e => roundDecimal neg (digitsValue 10 ds) (e - Z.of_nat (List.length fp))
        | None => NaN
        end
    end.

(** NonDecimalIntegerLiteral after its [0b], [0o] or [0x] prefix. *)
Definition NonDecimalIntegerLiteral (radix : Z) (l : list ascii) : number :=
  match scanDigits radix l with
  | (d :: ds, []) => roundInteger false (digitsValue radix (d :: ds))
  | _ => NaN
  end.

Definition nonDecimalRadix (c : ascii) : option Z :=
  if (Ascii.eqb c "b" || Ascii.eqb c "B")%bool then Some 2
  else if (Ascii.eqb c "o" || Ascii.eqb c "O")%bool then Some 8
  else if (Ascii.eqb c "x" || Ascii.eqb c "X")%bool then Some 16
  else None.

Definition StrNumericLiteral (l : list ascii) : number :=
  match l with
  | "+"%char :: r => StrUnsignedDecimalLiteral false r
  | "-"%char :: r => StrUnsignedDecimalLiteral true r
  | "0"%char :: x :: r =>
      match nonDecimalRadix x with
      | Some radix => NonDecimalIntegerLiteral radix r
      | None => StrUnsignedDecimalLiteral false l
      end
  | _ => StrUnsignedDecimalLiteral false l
  end.

Definition StringToNumber (l : list ascii) : number :=
  match trim l with
  | [] => S754_zero false
  | t => StrNumericLiteral t
  end.

(** [Number(s)] for a string [s]. *)
Definition Number (s : string) : number :=
  StringToNumber (list_ascii_of_string s).

(** [s.split(sep)] for a one-character separator and no limit. *)
Fixpoint split (sep : ascii) (s : string) : list string :=
  match s with
  | EmptyString => [EmptyString]
  | String c r =>
      if Ascii.eqb c sep then EmptyString :: split sep r
      else
        match split sep r with
        | h :: t => String c h :: t
        | [] => [String c EmptyString]
        end
  end.

End JS.

(** ** Documents, collections and requests *)

(** A MongoDB [ObjectId], as the number its twelve bytes spell.  A path
    parameter that is not the text of an [ObjectId] never reaches a
    collection (Mongoose rejects it while casting) and is not represented. *)
Definition ObjectId : Type := N.

(** [model/testsModel.js]: [date] is in milliseconds since the epoch. *)
Record TestDoc : Type := mkTest {
  test_id : ObjectId;
  patientId : ObjectId;
  date : Z;
  type : string;
  value : string
}.

(** [model/patientModel.js]. *)
Record PatientDoc : Type := mkPatient {
  patient_id : ObjectId;
  name : string;
  age : JS.number;
  gender : string;
  address : option string;
  phoneNumber : option string;
  medicalHistory : list string;
  criticalCondition : bool
}.

(** The [enum] of [testSchema.type]. *)
Definition testTypes : list string :=
  ["Blood Pressure"; "Respiratory Rate"; "Blood Oxygen Level"; "Heartbeat Rate"].

Record Db : Type := mkDb {
  patients : list PatientDoc;
  tests : list TestDoc
}.

Definition emptyDb : Db := mkDb [] [].

(** What a request reads from its surroundings: the clock ([Date.now()])
    and the [ObjectId] generated for a new document. *)
Record Env : Type := mkEnv {
  now : Z;
  oid : ObjectId
}.

(** [req.body], member by member after Mongoose has cast each one to the
    type of its schema path; [None] is a member that is missing.  The update
    handlers hand the body to [findByIdAndUpdate] as it is, so a body may
    also carry update operators: [testOperators] is such a body for a test,
    with the members under [$set] (where Mongoose also puts the members given
    without an operator), under [$max] and under [$min].  The other
    operators, and operator bodies for a patient, are not represented. *)
Module Body.

Record test : Type := mkTest {
  patientId : option ObjectId;
  date : option Z;
  type : option string;
  value : option string
}.

Definition noTest : test := mkTest None None None None.

Record testOperators : Type := mkTestOperators {
  op_set : test;
  op_max : test;
  op_min : test
}.

Record patient : Type := mkPatient {
  name : option string;
  age : option JS.number;
  gender : option string;
  address : option string;
  phoneNumber : option string;
  medicalHistory : option (list string);
  criticalCondition : option bool
}.

End Body.

(** ** Asynchronous functions: database state and exceptions *)

Inductive Error : Type :=
  | ValidationError
  | DuplicateKeyError
  | ConflictError.

Inductive Completion (A : Type) : Type :=
  | Normal (a : A)
  | Throw (e : Error).

Arguments Normal {A} a.
Arguments Throw {A} e.

Definition Async (A : Type) : Type := Db -> Db * Completion A.

Definition ret {A} (a : A) : Async A := fun db => (db, Normal a).

Definition throw {A} (e : Error) : Async A := fun db => (db, Throw e).

Definition bind {A B} (m : Async A) (k : A -> Async B) : Async B :=
  fun db =>
    match m db with
    | (db', Normal a) => k a db'
    | (db', Throw e) => (db', Throw e)
    end.

(** [try { body } catch (error) { handler }]: what the body wrote before it
    threw stays written. *)
Definition tryCatch {A} (body : Async A) (handler : Error -> Async A) : Async A :=
  fun db =>
    match body db with
    | (db', Normal a) => (db', Normal a)
    | (db', Throw e) => handler e db'
    end.

Declare Scope async_scope.
Delimit Scope async_scope with async.
Notation "x <- m ;; k" := (bind m (fun x => k))
  (at level 61, m at next level, right associativity) : async_scope.
Notation "m ;;; k" := (bind m (fun _ => k))
  (at level 61, right associativity) : async_scope.
Local Open Scope async_scope.

(** ** List helpers for the collections *)

Section FirstMatch.
Context {A : Type} (p : A -> bool).

(** Replace the first element that satisfies [p]. *)
Fixpoint updateFirst (f : A -> A) (l : list A) : list A :=
  match l with
  | [] => []
  | x :: r => if p x then f x :: r else x :: updateFirst f r
  end.

(** Drop the first element that satisfies [p]. *)
Fixpoint removeFirst (l : list A) : list A :=
  match l with
  | [] => []
  | x :: r => if p x then r else x :: removeFirst r
  end.
End FirstMatch.

(** [sort({ date: -1 })]: newest first.  Documents of equal date keep their
    natural order here; MongoDB leaves their order open, and the properties
    that name one test as the most recent take its date to be the latest. *)
Fixpoint insertByDate (t : TestDoc) (l : list TestDoc) : list TestDoc :=
  match l with
  | [] => [t]
  | u :: r => if date u <=? date t then t :: u :: r else u :: insertByDate t r
  end.

Fixpoint sortByDateDesc (l : list TestDoc) : list TestDoc :=
  match l with
  | [] => []
  | t :: r => insertByDate t (sortByDateDesc r)
  end.

(** ** Schema helpers *)

(** The [required] validator of a string path: the string is not empty. *)
Definition nonEmpty (s : string) : bool := negb (String.eqb s "").

(** A member of an update or of a constructor argument if it is given, the
    stored or default value otherwise. *)
Definition orElse {A} (o : option A) (d : A) : A :=
  match o with
  | Some a => a
  | None => d
  end.

(** ** The Patient model *)

Module Patient.

Definition hasId (id : ObjectId) (p : PatientDoc) : bool :=
  N.eqb (patient_id p) id.

(** Update validators run on the paths of the update only. *)
Definition validateUpdate (b : Body.patient) : bool :=
  match Body.name b with Some n => nonEmpty n | None => true end
  && match Body.gender b with Some g => nonEmpty g | None => true end.

(** [$set] of every member of the update. *)
Definition merge (b : Body.patient) (p : PatientDoc) : PatientDoc :=
  mkPatient (patient_id p)
    (orElse (Body.name b) (name p))
    (orElse (Body.age b) (age p))
    (orElse (Body.gender b) (gender p))
    (match Body.address b with Some a => Some a | None => address p end)
    (match Body.phoneNumber b with Some a => Some a | None => phoneNumber p end)
    (orElse (Body.medicalHistory b) (medicalHistory p))
    (orElse (Body.criticalCondition b) (criticalCondition p)).

(** [new Patient(body)] followed by [save()]: [name], [age] and [gender]
    are required (and a required string is not empty), [medicalHistory] and
    [criticalCondition] take their defaults, and the unique index on [_id]
    can refuse the insertion. *)
Definition save (id : ObjectId) (b : Body.patient) : Async PatientDoc :=
  fun db =>
    match Body.name b, Body.age b, Body.gender b with
    | Some n, Some a, Some g =>
        if nonEmpty n && nonEmpty g then
          if existsb (hasId id) (patients db) then throw DuplicateKeyError db
          else
            let p := mkPatient id n a g (Body.address b) (Body.phoneNumber b)
                       (orElse (Body.medicalHistory b) [])
                       (orElse (Body.criticalCondition b) false) in
            (mkDb (patients db ++ [p]) (tests db), Normal p)
        else throw ValidationError db
    | _, _, _ => throw ValidationError db
    end.

Definition find (filter : PatientDoc -> bool) : Async (list PatientDoc) :=
  fun db => (db, Normal (List.filter filter (patients db))).

Definition findById (id : ObjectId) : Async (option PatientDoc) :=
  fun db => (db, Normal (List.find (hasId id) (patients db))).

(** [findByIdAndUpdate(id, update, { new, runValidators })]: the validators
    run before the collection is touched; the result is the document after
    the update when [new] is set, before it otherwise, [None] for [null]. *)
Definition findByIdAndUpdate (id : ObjectId) (update : Body.patient)
    (new runValidators : bool) : Async (option PatientDoc) :=
  fun db =>
    if runValidators && negb (validateUpdate update) then throw ValidationError db
    else
      match List.find (hasId id) (patients db) with
      | None => (db, Normal None)
      | Some p =>
          (mkDb (updateFirst (hasId id) (merge update) (patients db)) (tests db),
           Normal (Some (if new then merge update p else p)))
      end.

Definition findByIdAndDelete (id : ObjectId) : Async (option PatientDoc) :=
  fun db =>
    match List.find (hasId id) (patients db) with
    | None => (db, Normal None)
    | Some p => (mkDb (removeFirst (hasId id) (patients db)) (tests db), Normal (Some p))
    end.

End Patient.

(** ** The Test model *)

Module Test.

Definition hasId (id : ObjectId) (t : TestDoc) : bool :=
  N.eqb (test_id t) id.

Definition ofPatient (id : ObjectId) (t : TestDoc) : bool :=
  N.eqb (patientId t) id.

Definition inEnum (s : string) : bool := existsb (String.eqb s) testTypes.

(** Update validators run on the paths of the update only: the [enum] of
    [type], and [required] (a string that is not empty) for [type] and
    [value]. *)
Definition validateUpdate (b : Body.test) : bool :=
  match Body.type b with Some ty => inEnum ty | None => true end
  && match Body.value b with Some v => nonEmpty v | None => true end.

(** [$set] of every member of the update. *)
Definition merge (b : Body.test) (t : TestDoc) : TestDoc :=
  mkTest (test_id t)
    (orElse (Body.patientId b) (patientId t))
    (orElse (Body.date b) (date t))
    (orElse (Body.type b) (type t))
    (orElse (Body.value b) (value t)).

(** [new Test(fields)] followed by [save()]: [date] defaults to
    [Date.now()]; [patientId], [type] and [value] are required, [type] is
    one of the [enum], and the unique index on [_id] can refuse the
    insertion. *)
Definition save (env : Env) (fields : Body.test) : Async TestDoc :=
  fun db =>
    match Body.patientId fields, Body.type fields, Body.value fields with
    | Some pid, Some ty, Some v =>
        if inEnum ty && nonEmpty v then
          if existsb (hasId (oid env)) (tests db) then throw DuplicateKeyError db
          else
            let t := mkTest (oid env) pid (orElse (Body.date fields) (now env)) ty v in
            (mkDb (patients db) (tests db ++ [t]), Normal t)
        else throw ValidationError db
    | _, _, _ => throw ValidationError db
    end.

(** A query under construction: what it yields on a given collection. *)
Definition Query (A : Type) : Type := list TestDoc -> list A.

Definition find (filter : TestDoc -> bool) : Query TestDoc :=
  fun coll => List.filter filter coll.

Definition sortDateDesc (q : Query TestDoc) : Query TestDoc :=
  fun coll => sortByDateDesc (q coll).

Definition limit {A} (n : nat) (q : Query A) : Query A :=
  fun coll => firstn n (q coll).

(** The members of a stored document, as they appear in a JSON response;
    [__v] is the version key Mongoose adds on [save()]. *)
Inductive Member : Type :=
  | MObjectId (id : ObjectId)
  | MDate (d : Z)
  | MString (s : string)
  | MNumber (n : JS.number).

Definition toObject (t : TestDoc) : list (string * Member) :=
  [("_id", MObjectId (test_id t));
   ("patientId", MObjectId (patientId t));
   ("date", MDate (date t));
   ("type", MString (type t));
   ("value", MString (value t));
   ("__v", MNumber (JS.lit 0))].

(** [select('a b c')]: an inclusive projection keeps the listed paths and,
    as nothing excludes it, [_id].  The server projects after it sorts,
    wherever [select] stands in the chain. *)
Definition select (paths : string) (q : Query TestDoc) : Query (list (string * Member)) :=
  fun coll =>
    map (fun t =>
           List.filter
             (fun m => String.eqb (fst m) "_id"
                       || existsb (String.eqb (fst m)) (JS.split " " paths))
             (toObject t))
        (q coll).

(** [await query]. *)
Definition exec {A} (q : Query A) : Async (list A) :=
  fun db => (db, Normal (q (tests db))).

Definition findById (id : ObjectId) : Async (option TestDoc) :=
  fun db => (db, Normal (List.find (hasId id) (tests db))).

Definition findByIdAndUpdate (id : ObjectId) (update : Body.test)
    (new runValidators : bool) : Async (option TestDoc) :=
  fun db =>
    if runValidators && negb (validateUpdate update) then throw ValidationError db
    else
      match List.find (hasId id) (tests db) with
      | None => (db, Normal None)
      | Some t =>
          (mkDb (patients db) (updateFirst (hasId id) (merge update) (tests db)),
           Normal (Some (if new then merge update t else t)))
      end.

Definition findByIdAndDelete (id : ObjectId) : Async (option TestDoc) :=
  fun db =>
    match List.find (hasId id) (tests db) with
    | None => (db, Normal None)
    | Some t => (mkDb (patients db) (removeFirst (hasId id) (tests db)), Normal (Some t))
    end.

(** *** Updates that carry operators *)

Definition given {A} (o : option A) : bool :=
  match o with
  | Some _ => true
  | None => false
  end.

(** A path named under two operators. *)
Definition clash {A} (a b c : option A) : bool :=
  (given a && given b) || (given a && given c) || (given b && given c).

(** MongoDB refuses an update in which two operators name the same path. *)
Definition conflicting (u : Body.testOperators) : bool :=
  clash (Body.patientId (Body.op_set u)) (Body.patientId (Body.op_max u))
        (Body.patientId (Body.op_min u))
  || clash (Body.date (Body.op_set u)) (Body.date (Body.op_max u))
           (Body.date (Body.op_min u))
  || clash (Body.type (Body.op_set u)) (Body.type (Body.op_max u))
           (Body.type (Body.op_min u))
  || clash (Body.value (Body.op_set u)) (Body.value (Body.op_max u))
           (Body.value (Body.op_min u)).

(** [$max] writes the given value when it is greater than the stored one,
    [$min] when it is less.  Ids compare as their bytes, dates as numbers and
    strings code unit by code unit. *)
Definition maxOf {A} (ltb : A -> A -> bool) (o : option A) (stored : A) : A :=
  match o with
  | Some x => if ltb stored x then x else stored
  | None => stored
  end.

Definition minOf {A} (ltb : A -> A -> bool) (o : option A) (stored : A) : A :=
  match o with
  | Some x => if ltb x stored then x else stored
  | None => stored
  end.

Definition applyMax (b : Body.test) (t : TestDoc) : TestDoc :=
  mkTest (test_id t)
    (maxOf N.ltb (Body.patientId b) (patientId t))
    (maxOf Z.ltb (Body.date b) (date t))
    (maxOf String.ltb (Body.type b) (type t))
    (maxOf String.ltb (Body.value b) (value t)).

Definition applyMin (b : Body.test) (t : TestDoc) : TestDoc :=
  mkTest (test_id t)
    (minOf N.ltb (Body.patientId b) (patientId t))
    (minOf Z.ltb (Body.date b) (date t))
    (minOf String.ltb (Body.type b) (type t))
    (minOf String.ltb (Body.value b) (value t)).

(** No path is named twice, so the order of the operators is immaterial. *)
Definition applyOperators (u : Body.testOperators) (t : TestDoc) : TestDoc :=
  applyMin (Body.op_min u) (applyMax (Body.op_max u) (merge (Body.op_set u) t)).

(** [findByIdAndUpdate] on a body with operators: the update validators run
    on the members under [$set] only, then the server refuses a conflicting
    update, then the first match is updated. *)
Definition findByIdAndUpdateOperators (id : ObjectId) (update : Body.testOperators)
    (new runValidators : bool) : Async (option TestDoc) :=
  fun db =>
    if runValidators && negb (validateUpdate (Body.op_set update))
    then throw ValidationError db
    else if conflicting update then throw ConflictError db
    else
      match List.find (hasId id) (tests db) with
      | None => (db, Normal None)
      | Some t =>
          (mkDb (patients db) (updateFirst (hasId id) (applyOperators update) (tests db)),
           Normal (Some (if new then applyOperators update t else t)))
      end.

End Test.

(** ** The controller: [controller/hospitalController.js] *)

Inductive Json : Type :=
  | patientJson (p : PatientDoc)
  | patientsJson (l : list PatientDoc)
  | testJson (t : TestDoc)
  | objectsJson (l : list (list (string * Test.Member)))
  | historyJson (patient : PatientDoc) (tests : list TestDoc)
  | messageJson (message : string)
  | errorJson (error : Error).

(** [res.status(code).json(body)]; [res.json(body)] alone answers 200. *)
Record Response : Type := mkResponse {
  status : Z;
  json : Json
}.

Definition res_json (body : Json) : Async Response := ret (mkResponse 200 body).

Definition res_status_json (code : Z) (body : Json) : Async Response :=
  ret (mkResponse code body).

Definition addPatient (env : Env) (body : Body.patient) : Async Response :=
  tryCatch
    (savedPatient <- Patient.save (oid env) body ;;
     res_status_json 201 (patientJson savedPatient))
    (fun error => res_status_json 400 (errorJson error)).

Definition getAllPatients : Async Response :=
  tryCatch
    (patients <- Patient.find (fun _ => true) ;;
     res_json (patientsJson patients))
    (fun error => res_status_json 500 (errorJson error)).

Definition getPatientById (id : ObjectId) : Async Response :=
  tryCatch
    (patient <- Patient.findById id ;;
     match patient with
     | None => res_status_json 404 (messageJson "Patient not found")
     | Some p => res_json (patientJson p)
     end)
    (fun error => res_status_json 500 (errorJson error)).

(** The value of [isCritical] after the [switch] on [latestTest.type]. *)
Definition isCritical (type value : string) : bool :=
  if String.eqb type "Blood Pressure" then
    let parts := map JS.Number (JS.split "/" value) in
    let systolic := JS.ToNumber (nth_error parts 0) in
    let diastolic := JS.ToNumber (nth_error parts 1) in
    JS.gt systolic (JS.lit 180) || JS.lt systolic (JS.lit 90)
    || JS.gt diastolic (JS.lit 120) || JS.lt diastolic (JS.lit 60)
  else if String.eqb type "Respiratory Rate" then
    let rate := JS.Number value in
    JS.gt rate (JS.lit 30) || JS.lt rate (JS.lit 12)
  else if String.eqb type "Blood Oxygen Level" then
    let oxygenLevel := JS.Number value in
    JS.lt oxygenLevel (JS.lit 90)
  else if String.eqb type "Heartbeat Rate" then
    let heartRate := JS.Number value in
    JS.gt heartRate (JS.lit 100) || JS.lt heartRate (JS.lit 60)
  else false.

Definition setCritical (isCritical : bool) : Body.patient :=
  Body.mkPatient None None None None None None (Some isCritical).

Definition updatePatientCriticalCondition (patientId : ObjectId) : Async unit :=
  recentTests <- Test.exec
    (Test.limit 1 (Test.sortDateDesc (Test.find (Test.ofPatient patientId)))) ;;
  match recentTests with
  | latestTest :: _ =>
      Patient.findByIdAndUpdate patientId
        (setCritical (isCritical (type latestTest) (value latestTest)))
        false false ;;;
      ret tt
  | [] => ret tt
  end.

Definition addTestForPatient (env : Env) (id : ObjectId) (body : Body.test)
    : Async Response :=
  tryCatch
    (test <- Test.save env
       (Body.mkTest (Some id) None (Body.type body) (Body.value body)) ;;
     updatePatientCriticalCondition id ;;;
     res_status_json 201 (testJson test))
    (fun error => res_status_json 400 (errorJson error)).

Definition getTestsForPatient (id : ObjectId) : Async Response :=
  tryCatch
    (tests <- Test.exec
       (Test.select "type value date createdAt updatedAt"
          (Test.sortDateDesc (Test.find (Test.ofPatient id)))) ;;
     res_json (objectsJson tests))
    (fun error => res_status_json 500 (errorJson error)).

Definition getPatientHistory (id : ObjectId) : Async Response :=
  tryCatch
    (patient <- Patient.findById id ;;
     match patient with
     | None => res_status_json 404 (messageJson "Patient not found")
     | Some p =>
         tests <- Test.exec (Test.sortDateDesc (Test.find (Test.ofPatient id))) ;;
         res_json (historyJson p tests)
     end)
    (fun error => res_status_json 500 (errorJson error)).

Definition getCriticalPatients : Async Response :=
  tryCatch
    (criticalPatients <- Patient.find criticalCondition ;;
     res_json (patientsJson criticalPatients))
    (fun error => res_status_json 500 (errorJson error)).

Definition updatePatient (id : ObjectId) (body : Body.patient) : Async Response :=
  tryCatch
    (patient <- Patient.findByIdAndUpdate id body true true ;;
     match patient with
     | None => res_status_json 404 (messageJson "Patient not found")
     | Some p => res_json (patientJson p)
     end)
    (fun error => res_status_json 400 (errorJson error)).

Definition deletePatient (id : ObjectId) : Async Response :=
  tryCatch
    (patient <- Patient.findByIdAndDelete id ;;
     match patient with
     | None => res_status_json 404 (messageJson "Patient not found")
     | Some _ => res_json (messageJson "Patient deleted successfully")
     end)
    (fun error => res_status_json 500 (errorJson error)).

Definition updateTest (testId : ObjectId) (body : Body.test) : Async Response :=
  tryCatch
    (test <- Test.findByIdAndUpdate testId body true true ;;
     match test with
     | None => res_status_json 404 (messageJson "Test not found")
     | Some t => res_json (testJson t)
     end)
    (fun error => res_status_json 400 (errorJson error)).

(** [updateTest] on a body that carries update operators. *)
Definition updateTestOperators (testId : ObjectId) (body : Body.testOperators)
    : Async Response :=
  tryCatch
    (test <- Test.findByIdAndUpdateOperators testId body true true ;;
     match test with
     | None => res_status_json 404 (messageJson "Test not found")
     | Some t => res_json (testJson t)
     end)
    (fun error => res_status_json 400 (errorJson error)).

Definition deleteTest (testId : ObjectId) : Async Response :=
  tryCatch
    (test <- Test.findByIdAndDelete testId ;;
     match test with
     | None => res_status_json 404 (messageJson "Test not found")
     | Some _ => res_json (messageJson "Test deleted successfully")
     end)
    (fun error => res_status_json 500 (errorJson error)).

Definition getTestById (testId : ObjectId) : Async Response :=
  tryCatch
    (test <- Test.findById testId ;;
     match test with
     | None => res_status_json 404 (messageJson "Test not found")
     | Some t => res_json (testJson t)
     end)
    (fun error => res_status_json 500 (errorJson error)).

(** ** The route table: [routes/hospitalRoutes.js]

    One constructor per registered route; the PUT route of a test has a
    second one for a body that carries update operators. *)

Inductive Request : Type :=
  | POST_patients (body : Body.patient)
  | GET_patients
  | GET_patients_critical
  | GET_patients_id (id : ObjectId)
  | PUT_patients_id (id : ObjectId) (body : Body.patient)
  | DELETE_patients_id (id : ObjectId)
  | POST_patients_id_tests (id : ObjectId) (body : Body.test)
  | GET_patients_id_tests (id : ObjectId)
  | PUT_patients_id_tests_testId (id testId : ObjectId) (body : Body.test)
  | PUT_patients_id_tests_testId_operators (id testId : ObjectId)
      (body : Body.testOperators)
  | DELETE_patients_id_tests_testId (id testId : ObjectId)
  | GET_patients_id_history (id : ObjectId)
  | GET_patients_patientId_tests_testId (patientId testId : ObjectId).

Definition router (env : Env) (req : Request) : Async Response :=
  match req with
  | POST_patients body => addPatient env body
  | GET_patients => getAllPatients
  | GET_patients_critical => getCriticalPatients
  | GET_patients_id id => getPatientById id
  | PUT_patients_id id body => updatePatient id body
  | DELETE_patients_id id => deletePatient id
  | POST_patients_id_tests id body => addTestForPatient env id body
  | GET_patients_id_tests id => getTestsForPatient id
  | PUT_patients_id_tests_testId _ testId body => updateTest testId body
  | PUT_patients_id_tests_testId_operators _ testId body =>
      updateTestOperators testId body
  | DELETE_patients_id_tests_testId _ testId => deleteTest testId
  | GET_patients_id_history id => getPatientHistory id
  | GET_patients_patientId_tests_testId _ testId => getTestById testId
  end.

(** The database after a sequence of requests, each with its environment. *)
Fixpoint serve (reqs : list (Env * Request)) (db : Db) : Db :=
  match reqs with
  | [] => db
  | (env, req) :: rest => serve rest (fst (router env req db))
  end.

(** * Notions used to state the properties *)

(** ** Numbers and blood pressure values *)

Module Spec.

(** The order of numeric values: [below x y] when [x] is less than [y],
    [above x y] when it is greater; neither holds when one side is NaN. *)
Definition below (x y : JS.number) : Prop := SFcompare x y = Some Lt.
Definition above (x y : JS.number) : Prop := SFcompare x y = Some Gt.

(** The text before the first separator, and the text after it if there
    is a separator at all. *)
Fixpoint cut (sep : ascii) (s : string) : string * option string :=
  match s with
  | EmptyString => (EmptyString, None)
  | String c r =>
      if Ascii.eqb c sep then (EmptyString, Some r)
      else let '(h, t) := cut sep r in (String c h, t)
  end.

(** A blood pressure value read as "systolic/diastolic": the number before
    the first slash, and the number between the first slash and the next
    (not a number when the value has no slash). *)
Definition systolic (value : string) : JS.number :=
  JS.Number (fst (cut "/" value)).

Definition diastolic (value : string) : JS.number :=
  match snd (cut "/" value) with
  | Some r => JS.Number (fst (cut "/" r))
  | None => JS.NaN
  end.

(** The decimal text of a natural number, as a reading is usually sent. *)
Definition decimal (n : nat) : string := NilZero.string_of_uint (Nat.to_uint n).

(** A value that is not a number for its type: both readings of a blood
    pressure, the single reading otherwise. *)
Definition nonNumeric (type value : string) : Prop :=
  if String.eqb type "Blood Pressure"
  then systolic value = JS.NaN /\ diastolic value = JS.NaN
  else JS.Number value = JS.NaN.

(** The classification as the specification words it. *)
Definition critical (type value : string) : Prop :=
  (type = "Blood Pressure" /\
     (above (systolic value) (JS.lit 180) \/ below (systolic value) (JS.lit 90) \/
      above (diastolic value) (JS.lit 120) \/ below (diastolic value) (JS.lit 60)))
  \/ (type = "Respiratory Rate" /\
     (above (JS.Number value) (JS.lit 30) \/ below (JS.Number value) (JS.lit 12)))
  \/ (type = "Blood Oxygen Level" /\ below (JS.Number value) (JS.lit 90))
  \/ (type = "Heartbeat Rate" /\
     (above (JS.Number value) (JS.lit 100) \/ below (JS.Number value) (JS.lit 60))).

End Spec.

(** ** Most recent test and recomputation *)

(** [newerFirst a b]: [a] may stand before [b] in a list sorted by date,
    newest first. *)
Definition newerFirst (a b : TestDoc) : Prop := date b <= date a.

(** The patient's most recent test: the first of its tests, newest first. *)
Definition latestTest (id : ObjectId) (db : Db) : option TestDoc :=
  hd_error (sortByDateDesc (List.filter (Test.ofPatient id) (tests db))).

Definition withCritical (b : bool) (p : PatientDoc) : PatientDoc :=
  mkPatient (patient_id p) (name p) (age p) (gender p) (address p) (phoneNumber p)
    (medicalHistory p) b.

(** The database that [updatePatientCriticalCondition] leaves. *)
Definition recomputed (id : ObjectId) (db : Db) : Db :=
  match latestTest id db with
  | Some t =>
      mkDb (updateFirst (Patient.hasId id)
              (withCritical (isCritical (type t) (value t))) (patients db))
           (tests db)
  | None => db
  end.

(** The record that add-test stores, and the database once it is stored. *)
Definition newTest (env : Env) (id : ObjectId) (ty v : string) : TestDoc :=
  mkTest (oid env) id (now env) ty v.

Definition inserted (t : TestDoc) (db : Db) : Db :=
  mkDb (patients db) (tests db ++ [t]).

Definition bloodPressure (v : string) : Body.test :=
  Body.mkTest None None (Some "Blood Pressure") (Some v).

(** ** Answers and invariants *)

(** The members of a test that list-tests-for-patient returns. *)
Definition testView (t : TestDoc) : list (string * Test.Member) :=
  [("_id", Test.MObjectId (test_id t));
   ("date", Test.MDate (date t));
   ("type", Test.MString (type t));
   ("value", Test.MString (value t))].

Definition notFound : Response := mkResponse 404 (messageJson "Patient not found").

(** Every stored test has one of the enumerated types. *)
Definition typesValid (db : Db) : Prop :=
  Forall (fun t => In (type t) testTypes) (tests db).

(** ** A small ward, built through the API *)

Module Ward.

Definition ann : Body.patient :=
  Body.mkPatient (Some "Ann") (Some (JS.lit 40)) (Some "female") None None None None.

Definition heartbeat (v : string) : Body.test :=
  Body.mkTest None None (Some "Heartbeat Rate") (Some v).

(** One patient (id 1) with one heartbeat test (id 2) taken at time 2000. *)
Definition db1 : Db :=
  serve [(mkEnv 1000 1%N, POST_patients ann);
         (mkEnv 2000 2%N, POST_patients_id_tests 1%N (heartbeat "72"))]
        emptyDb.

(** The same ward after the date of the test was edited to 9000. *)
Definition db2 : Db :=
  serve [(mkEnv 2500 0%N,
          PUT_patients_id_tests_testId 1%N 2%N (Body.mkTest None (Some 9000) None None))]
        db1.

(** The first ward after a heartbeat test with the value "abc" (id 3) was
    added at time 3000. *)
Definition db3 : Db :=
  serve [(mkEnv 3000 3%N, POST_patients_id_tests 1%N (heartbeat "abc"))] db1.

Definition annDoc : PatientDoc :=
  mkPatient 1%N "Ann" (JS.lit 40) "female" None None [] false.

Definition test2 : TestDoc := mkTest 2%N 1%N 2000 "Heartbeat Rate" "72".

(** A store in which the newest test of patient 1 has a type outside the
    enumeration, as a writer other than this API can leave it. *)
Definition db4 : Db :=
  mkDb [annDoc] [test2; mkTest 5%N 1%N 5000 "Temperature" "39"].

End Ward.

(** ** Notions for the further properties *)

(** No two stored patients share an id, and no two stored tests. *)
Definition uniqueIds (db : Db) : Prop :=
  NoDup (map patient_id (patients db)) /\ NoDup (map test_id (tests db)).

(** A value made of [n] spaces. *)
Fixpoint spaces (n : nat) : string :=
  match n with
  | O => EmptyString
  | S k => String " " (spaces k)
  end.

(** The string has no slash. *)
Fixpoint slashFree (s : string) : bool :=
  match s with
  | EmptyString => true
  | String c r => negb (Ascii.eqb c "/") && slashFree r
  end.

(** [parts.join(sep)] for a one-character separator. *)
Fixpoint join (sep : ascii) (parts : list string) : string :=
  match parts with
  | [] => EmptyString
  | [x] => x
  | x :: r => x ++ String sep (join sep r)
  end.

(** The routes of the table that are registered with [router.get]. *)
Definition isGet (req : Request) : bool :=
  match req with
  | GET_patients | GET_patients_critical | GET_patients_id _
  | GET_patients_id_tests _ | GET_patients_id_history _
  | GET_patients_patientId_tests_testId _ _ => true
  | _ => false
  end.

Definition testNotFound : Response := mkResponse 404 (messageJson "Test not found").

(** The request is an update of a test with a body that carries update
    operators. *)
Definition isOperatorUpdate (req : Request) : bool :=
  match req with
  | PUT_patients_id_tests_testId_operators _ _ _ => true
  | _ => false
  end.

(** The request is an add-test. *)
Definition isAddTest (req : Request) : bool :=
  match req with
  | POST_patients_id_tests _ _ => true
  | _ => false
  end.

(** The body [{ "$max": { "type": "~" } }]. *)
Definition maxTypeTilde : Body.testOperators :=
  Body.mkTestOperators Body.noTest (Body.mkTest None None (Some "~") None) Body.noTest.

(** * Properties *)

(** ** Numbers *)

Lemma SFcompare_swap (x y : spec_float) :
  SFcompare y x = option_map CompOpp (SFcompare x y).
Proof.
  destruct x as [sx | sx | | sx mx ex], y as [sy | sy | | sy my ey]; simpl;
    try reflexivity;
    try (destruct sx; reflexivity);
    try (destruct sy; reflexivity);
    try (destruct sx, sy; reflexivity).
  destruct sx, sy; simpl; try reflexivity;
    rewrite (Z.compare_antisym ex ey);
    destruct (ex ?= ey); simpl; try reflexivity;
    rewrite ?(Pos.compare_cont_antisym mx my Eq); simpl;
    try rewrite CompOpp_involutive; reflexivity.
Qed.

Lemma lt_below (x y : JS.number) : JS.lt x y = true <-> Spec.below x y.
Proof.
  unfold JS.lt, SFltb, Spec.below.
  destruct (SFcompare x y) as [[ | | ] | ]; split; intro H;
    try reflexivity; try discriminate H.
Qed.

Lemma gt_above (x y : JS.number) : JS.gt x y = true <-> Spec.above x y.
Proof.
  unfold JS.gt, SFltb, Spec.above.
  rewrite (SFcompare_swap x y).
  destruct (SFcompare x y) as [[ | | ] | ]; simpl; split; intro H;
    try reflexivity; try discriminate H.
Qed.

Lemma split_cut (sep : ascii) (s : string) :
  JS.split sep s =
  fst (Spec.cut sep s) ::
  match snd (Spec.cut sep s) with
  | Some r => JS.split sep r
  | None => []
  end.
Proof.
  induction s as [ | c r IH]; simpl.
  - reflexivity.
  - destruct (Ascii.eqb c sep); simpl.
    + reflexivity.
    + rewrite IH. destruct (Spec.cut sep r) as [h t]. reflexivity.
Qed.

Lemma systolic_split (value : string) :
  JS.ToNumber (nth_error (map JS.Number (JS.split "/" value)) 0) = Spec.systolic value.
Proof. rewrite split_cut. reflexivity. Qed.

Lemma diastolic_split (value : string) :
  JS.ToNumber (nth_error (map JS.Number (JS.split "/" value)) 1) = Spec.diastolic value.
Proof.
  rewrite split_cut. unfold Spec.diastolic.
  destruct (snd (Spec.cut "/" value)) as [r | ]; simpl.
  - rewrite split_cut. reflexivity.
  - reflexivity.
Qed.

Lemma orb4_true (a b c d : bool) :
  a || b || c || d = true <-> a = true \/ b = true \/ c = true \/ d = true.
Proof. destruct a, b, c, d; simpl; intuition discriminate. Qed.

Lemma isCritical_bloodPressure (value : string) :
  isCritical "Blood Pressure" value = true <->
  Spec.above (Spec.systolic value) (JS.lit 180) \/
  Spec.below (Spec.systolic value) (JS.lit 90) \/
  Spec.above (Spec.diastolic value) (JS.lit 120) \/
  Spec.below (Spec.diastolic value) (JS.lit 60).
Proof.
  unfold isCritical.
  change (String.eqb "Blood Pressure" "Blood Pressure") with true. cbv iota zeta.
  rewrite systolic_split, diastolic_split, orb4_true.
  rewrite !gt_above, !lt_below. reflexivity.
Qed.

Lemma isCritical_respiratoryRate (value : string) :
  isCritical "Respiratory Rate" value = true <->
  Spec.above (JS.Number value) (JS.lit 30) \/ Spec.below (JS.Number value) (JS.lit 12).
Proof.
  unfold isCritical.
  change (String.eqb "Respiratory Rate" "Blood Pressure") with false.
  change (String.eqb "Respiratory Rate" "Respiratory Rate") with true. cbv iota zeta.
  rewrite orb_true_iff, gt_above, lt_below. reflexivity.
Qed.

Lemma isCritical_bloodOxygen (value : string) :
  isCritical "Blood Oxygen Level" value = true <->
  Spec.below (JS.Number value) (JS.lit 90).
Proof.
  unfold isCritical.
  change (String.eqb "Blood Oxygen Level" "Blood Pressure") with false.
  change (String.eqb "Blood Oxygen Level" "Respiratory Rate") with false.
  change (String.eqb "Blood Oxygen Level" "Blood Oxygen Level") with true. cbv iota zeta.
  apply lt_below.
Qed.

Lemma isCritical_heartbeatRate (value : string) :
  isCritical "Heartbeat Rate" value = true <->
  Spec.above (JS.Number value) (JS.lit 100) \/ Spec.below (JS.Number value) (JS.lit 60).
Proof.
  unfold isCritical.
  change (String.eqb "Heartbeat Rate" "Blood Pressure") with false.
  change (String.eqb "Heartbeat Rate" "Respiratory Rate") with false.
  change (String.eqb "Heartbeat Rate" "Blood Oxygen Level") with false.
  change (String.eqb "Heartbeat Rate" "Heartbeat Rate") with true. cbv iota zeta.
  rewrite orb_true_iff, gt_above, lt_below. reflexivity.
Qed.

Lemma isCritical_other (type value : string) :
  ~ In type testTypes -> isCritical type value = false.
Proof.
  intro H. unfold isCritical.
  destruct (String.eqb_spec type "Blood Pressure") as [-> | _].
  { exfalso. apply H. simpl. auto. }
  destruct (String.eqb_spec type "Respiratory Rate") as [-> | _].
  { exfalso. apply H. simpl. auto. }
  destruct (String.eqb_spec type "Blood Oxygen Level") as [-> | _].
  { exfalso. apply H. simpl. auto. }
  destruct (String.eqb_spec type "Heartbeat Rate") as [-> | _].
  { exfalso. apply H. simpl. auto. }
  reflexivity.
Qed.

(** ** Lists: first match, newest first *)

Section FirstMatchFacts.
Context {A : Type} (p : A -> bool).

Lemma updateFirst_absent (f : A -> A) (l : list A) :
  List.find p l = None -> updateFirst p f l = l.
Proof.
  induction l as [ | x r IH]; simpl; intro H.
  - reflexivity.
  - destruct (p x).
    + discriminate H.
    + rewrite (IH H). reflexivity.
Qed.

Lemma removeFirst_absent (l : list A) :
  List.find p l = None -> removeFirst p l = l.
Proof.
  induction l as [ | x r IH]; simpl; intro H.
  - reflexivity.
  - destruct (p x).
    + discriminate H.
    + rewrite (IH H). reflexivity.
Qed.

(** A found element splits the list at the first match. *)
Lemma find_split (l : list A) (x : A) :
  List.find p l = Some x ->
  exists l1 l2,
    l = l1 ++ x :: l2 /\ p x = true /\ (forall y, In y l1 -> p y = false).
Proof.
  induction l as [ | y r IH]; simpl; intro H.
  - discriminate H.
  - destruct (p y) eqn:Hy.
    + injection H as ->. exists [], r. simpl. intuition.
    + destruct (IH H) as (l1 & l2 & -> & Hx & Hl1).
      exists (y :: l1), l2. simpl. repeat split; trivial.
      intros z [<- | Hz]; auto.
Qed.

Lemma removeFirst_split (l1 l2 : list A) (x : A) :
  p x = true -> (forall y, In y l1 -> p y = false) ->
  removeFirst p (l1 ++ x :: l2) = l1 ++ l2.
Proof.
  intros Hx. induction l1 as [ | y r IH]; simpl; intro H.
  - rewrite Hx. reflexivity.
  - rewrite (H y (or_introl eq_refl)). rewrite IH; auto.
Qed.

Lemma updateFirst_split (f : A -> A) (l1 l2 : list A) (x : A) :
  p x = true -> (forall y, In y l1 -> p y = false) ->
  updateFirst p f (l1 ++ x :: l2) = l1 ++ f x :: l2.
Proof.
  intros Hx. induction l1 as [ | y r IH]; simpl; intro H.
  - rewrite Hx. reflexivity.
  - rewrite (H y (or_introl eq_refl)). rewrite IH; auto.
Qed.

Lemma find_none_iff (l : list A) :
  List.find p l = None <-> (forall y, In y l -> p y = false).
Proof.
  split.
  - intros H y Hy. apply (find_none p l H y Hy).
  - induction l as [ | x r IH]; simpl; intro H.
    + reflexivity.
    + rewrite (H x (or_introl eq_refl)). apply IH. auto.
Qed.

(** When [f] keeps [p], the first match after the update is the image
    of the first match before it. *)
Lemma find_updateFirst (f : A -> A) (l : list A) :
  (forall x, p (f x) = p x) ->
  List.find p (updateFirst p f l) = option_map f (List.find p l).
Proof.
  intro Hf. induction l as [ | x r IH]; simpl.
  - reflexivity.
  - destruct (p x) eqn:Hx; simpl.
    + rewrite Hf, Hx. reflexivity.
    + rewrite Hx. exact IH.
Qed.

(** Elements that a second predicate [q] tells apart from the matches of
    [p] are not affected by the update or the removal. *)
Lemma filter_updateFirst (q : A -> bool) (f : A -> A) (l : list A) :
  (forall x, p x = true -> q x = false) ->
  (forall x, p x = true -> q (f x) = false) ->
  List.filter q (updateFirst p f l) = List.filter q l.
Proof.
  intros H1 H2. induction l as [ | x r IH]; simpl.
  - reflexivity.
  - destruct (p x) eqn:Hx; simpl.
    + rewrite (H1 x Hx), (H2 x Hx). reflexivity.
    + rewrite IH. reflexivity.
Qed.

Lemma filter_removeFirst (q : A -> bool) (l : list A) :
  (forall x, p x = true -> q x = false) ->
  List.filter q (removeFirst p l) = List.filter q l.
Proof.
  intros H1. induction l as [ | x r IH]; simpl.
  - reflexivity.
  - destruct (p x) eqn:Hx; simpl.
    + rewrite (H1 x Hx). reflexivity.
    + rewrite IH. reflexivity.
Qed.

Lemma updateFirst_length (f : A -> A) (l : list A) :
  List.length (updateFirst p f l) = List.length l.
Proof.
  induction l as [ | x r IH]; simpl.
  - reflexivity.
  - destruct (p x); simpl; congruence.
Qed.
End FirstMatchFacts.

Lemma find_other_updateFirst {A} (p q : A -> bool) (f : A -> A) (l : list A) :
  (forall x, q (f x) = q x) ->
  (forall x, p x = true -> q x = false) ->
  List.find q (updateFirst p f l) = List.find q l.
Proof.
  intros Hf Hpq. induction l as [ | x r IH]; simpl.
  - reflexivity.
  - destruct (p x) eqn:Hx; simpl.
    + rewrite Hf, (Hpq x Hx). reflexivity.
    + rewrite IH. reflexivity.
Qed.

Lemma insertByDate_perm (t : TestDoc) (l : list TestDoc) :
  Permutation (insertByDate t l) (t :: l).
Proof.
  induction l as [ | u r IH]; simpl.
  - apply Permutation_refl.
  - destruct (date u <=? date t).
    + apply Permutation_refl.
    + apply perm_trans with (u :: t :: r).
      * apply perm_skip. exact IH.
      * apply perm_swap.
Qed.

Lemma sortByDateDesc_perm (l : list TestDoc) : Permutation (sortByDateDesc l) l.
Proof.
  induction l as [ | t r IH]; simpl.
  - apply perm_nil.
  - apply perm_trans with (t :: sortByDateDesc r).
    + apply insertByDate_perm.
    + apply perm_skip. exact IH.
Qed.

Lemma insertByDate_sorted (t : TestDoc) (l : list TestDoc) :
  StronglySorted newerFirst l -> StronglySorted newerFirst (insertByDate t l).
Proof.
  induction l as [ | u r IH]; simpl; intro H.
  - constructor; constructor.
  - inversion H as [ | ? ? Hr Hu]; subst.
    destruct (Z.leb_spec (date u) (date t)) as [Hle | Hlt].
    + constructor; [exact H | ].
      constructor; [exact Hle | ].
      rewrite Forall_forall in *. intros x Hx.
      unfold newerFirst in *. specialize (Hu x Hx). lia.
    + constructor; [apply IH; exact Hr | ].
      rewrite Forall_forall in *. intros x Hx.
      apply (Permutation_in _ (insertByDate_perm t r)) in Hx.
      destruct Hx as [<- | Hx].
      * unfold newerFirst. lia.
      * apply Hu. exact Hx.
Qed.

Lemma sortByDateDesc_sorted (l : list TestDoc) :
  StronglySorted newerFirst (sortByDateDesc l).
Proof.
  induction l as [ | t r IH]; simpl.
  - constructor.
  - apply insertByDate_sorted. exact IH.
Qed.

(** The head of the sorted list is a document of the list, and none is
    newer. *)
Lemma sortByDateDesc_head (l : list TestDoc) (h : TestDoc) (r : list TestDoc) :
  sortByDateDesc l = h :: r ->
  In h l /\ (forall t, In t l -> date t <= date h).
Proof.
  intro H.
  pose proof (sortByDateDesc_perm l) as HP. rewrite H in HP.
  pose proof (sortByDateDesc_sorted l) as HS. rewrite H in HS.
  split.
  - apply (Permutation_in _ HP). left. reflexivity.
  - intros t Ht.
    apply (Permutation_in _ (Permutation_sym HP)) in Ht.
    destruct Ht as [<- | Ht].
    + lia.
    + inversion HS as [ | ? ? _ Hall]; subst.
      rewrite Forall_forall in Hall. apply (Hall t Ht).
Qed.

(** A document strictly newer than all the others comes first, wherever
    it stands in the collection. *)
Lemma sortByDateDesc_newest (l : list TestDoc) (t : TestDoc) :
  (forall u, In u l -> date u < date t) ->
  sortByDateDesc (l ++ [t]) = t :: sortByDateDesc l.
Proof.
  induction l as [ | a r IH]; simpl; intro H.
  - reflexivity.
  - rewrite IH by auto. simpl.
    destruct (Z.leb_spec (date t) (date a)) as [Hle | _].
    + specialize (H a (or_introl eq_refl)). lia.
    + reflexivity.
Qed.

Lemma sortByDateDesc_nil (l : list TestDoc) : sortByDateDesc l = [] -> l = [].
Proof.
  intro H. pose proof (sortByDateDesc_perm l) as HP. rewrite H in HP.
  apply Permutation_nil. exact HP.
Qed.

(** ** Validation predicates *)

Lemma inEnum_In (s : string) : Test.inEnum s = true <-> In s testTypes.
Proof.
  unfold Test.inEnum. rewrite existsb_exists. split.
  - intros (x & Hx & E). apply String.eqb_eq in E. subst x. exact Hx.
  - intro H. exists s. split; [exact H | apply String.eqb_refl].
Qed.

Lemma nonEmpty_neq (s : string) : nonEmpty s = true <-> s <> "".
Proof.
  unfold nonEmpty. destruct (String.eqb_spec s ""); simpl; split; intro H;
    try discriminate; try congruence; try reflexivity.
Qed.

Lemma test_fresh (id : ObjectId) (l : list TestDoc) :
  existsb (Test.hasId id) l = false <-> (forall t, In t l -> test_id t <> id).
Proof.
  unfold Test.hasId. split.
  - intros H t Ht E.
    assert (existsb (fun t => N.eqb (test_id t) id) l = true) as H'.
    { apply existsb_exists. exists t. split; [exact Ht | ]. apply N.eqb_eq. exact E. }
    congruence.
  - intro H. destruct (existsb _ l) eqn:E; [ | reflexivity].
    apply existsb_exists in E. destruct E as (t & Ht & E).
    apply N.eqb_eq in E. destruct (H t Ht E).
Qed.

Lemma patient_absent (id : ObjectId) (l : list PatientDoc) :
  List.find (Patient.hasId id) l = None <-> (forall p, In p l -> patient_id p <> id).
Proof.
  rewrite find_none_iff. unfold Patient.hasId. split; intros H p Hp.
  - specialize (H p Hp). apply N.eqb_neq. exact H.
  - apply N.eqb_neq. apply H. exact Hp.
Qed.

(** ** Recomputation of the critical flag *)

Lemma merge_setCritical (b : bool) (p : PatientDoc) :
  Patient.merge (setCritical b) p = withCritical b p.
Proof. destruct p; reflexivity. Qed.

Lemma updateFirst_ext {A} (p : A -> bool) (f g : A -> A) (l : list A) :
  (forall x, f x = g x) -> updateFirst p f l = updateFirst p g l.
Proof.
  intro H. induction l as [ | x r IH]; simpl.
  - reflexivity.
  - destruct (p x); congruence.
Qed.

Lemma updatePatientCriticalCondition_eq (id : ObjectId) (db : Db) :
  updatePatientCriticalCondition id db = (recomputed id db, Normal tt).
Proof.
  unfold updatePatientCriticalCondition, recomputed, latestTest, bind, ret,
    Test.exec, Test.limit, Test.sortDateDesc, Test.find.
  destruct (sortByDateDesc (List.filter (Test.ofPatient id) (tests db)))
    as [ | t rest]; simpl.
  - reflexivity.
  - unfold Patient.findByIdAndUpdate. simpl.
    destruct (List.find (Patient.hasId id) (patients db)) eqn:E.
    + rewrite (updateFirst_ext _ _ _ _ (merge_setCritical _)). reflexivity.
    + rewrite (updateFirst_absent _ _ _ E). destruct db; reflexivity.
Qed.

Lemma recomputed_tests (id : ObjectId) (db : Db) : tests (recomputed id db) = tests db.
Proof. unfold recomputed. destruct (latestTest id db); reflexivity. Qed.

Lemma hasId_withCritical (id : ObjectId) (b : bool) (p : PatientDoc) :
  Patient.hasId id (withCritical b p) = Patient.hasId id p.
Proof. reflexivity. Qed.

(** With a most recent test [t], the patient found under [id] afterwards
    is the one found before, its flag set to the classification of [t]. *)
Lemma recomputed_patient (id : ObjectId) (db : Db) (t : TestDoc) :
  latestTest id db = Some t ->
  List.find (Patient.hasId id) (patients (recomputed id db)) =
  option_map (withCritical (isCritical (type t) (value t)))
    (List.find (Patient.hasId id) (patients db)).
Proof.
  intro H. unfold recomputed. rewrite H. simpl.
  apply find_updateFirst. intro x. apply hasId_withCritical.
Qed.

Lemma recomputed_other (id id' : ObjectId) (db : Db) :
  id' <> id ->
  List.find (Patient.hasId id') (patients (recomputed id db)) =
  List.find (Patient.hasId id') (patients db).
Proof.
  intro H. unfold recomputed. destruct (latestTest id db); [ | reflexivity]. simpl.
  apply find_other_updateFirst.
  - intro x. apply hasId_withCritical.
  - intros x Hx. unfold Patient.hasId in *.
    apply N.eqb_eq in Hx. apply N.eqb_neq. congruence.
Qed.

(** The most recent test is one of the patient's tests and none of them is
    newer. *)
Lemma latestTest_newest (id : ObjectId) (db : Db) (t : TestDoc) :
  latestTest id db = Some t ->
  In t (tests db) /\ patientId t = id /\
  (forall u, In u (tests db) -> patientId u = id -> date u <= date t).
Proof.
  unfold latestTest. intro H.
  destruct (sortByDateDesc _) as [ | h r] eqn:E; simpl in H; [discriminate | ].
  injection H as ->.
  destruct (sortByDateDesc_head _ _ _ E) as [Hin Hmax].
  apply filter_In in Hin. destruct Hin as [Hin Hp].
  repeat split.
  - exact Hin.
  - apply N.eqb_eq. exact Hp.
  - intros u Hu Hid. apply Hmax. apply filter_In. split; [exact Hu | ].
    apply N.eqb_eq. exact Hid.
Qed.

(** ** Adding a test *)

Lemma addTestForPatient_valid (env : Env) (id : ObjectId) (body : Body.test)
    (db : Db) (ty v : string) :
  Body.type body = Some ty -> Body.value body = Some v ->
  In ty testTypes -> v <> "" ->
  (forall t, In t (tests db) -> test_id t <> oid env) ->
  addTestForPatient env id body db =
  (recomputed id (inserted (newTest env id ty v) db),
   Normal (mkResponse 201 (testJson (newTest env id ty v)))).
Proof.
  intros Hty Hv Henum Hne Hfresh.
  apply inEnum_In in Henum. apply nonEmpty_neq in Hne. apply test_fresh in Hfresh.
  unfold addTestForPatient, tryCatch, bind, Test.save. simpl.
  rewrite Hty, Hv, Henum, Hne, Hfresh. simpl.
  rewrite updatePatientCriticalCondition_eq. reflexivity.
Qed.

(** A body that fails validation is answered 400 and nothing is written. *)
Lemma addTestForPatient_invalid (env : Env) (id : ObjectId) (body : Body.test) (db : Db) :
  match Body.type body, Body.value body with
  | Some ty, Some v => Test.inEnum ty && nonEmpty v = false
  | _, _ => True
  end ->
  addTestForPatient env id body db =
  (db, Normal (mkResponse 400 (errorJson ValidationError))).
Proof.
  unfold addTestForPatient, tryCatch, bind, Test.save. simpl.
  destruct (Body.type body) as [ty | ], (Body.value body) as [v | ]; intro H;
    try reflexivity.
  rewrite H. reflexivity.
Qed.

(** Once inserted with a date later than every other test of the patient,
    the new test is the most recent one. *)
Lemma latestTest_inserted (env : Env) (id : ObjectId) (ty v : string) (db : Db) :
  (forall u, In u (tests db) -> patientId u = id -> date u < now env) ->
  latestTest id (inserted (newTest env id ty v) db) = Some (newTest env id ty v).
Proof.
  intro H. unfold latestTest, inserted. simpl.
  rewrite filter_app. simpl.
  unfold Test.ofPatient at 2. simpl. rewrite N.eqb_refl.
  rewrite sortByDateDesc_newest.
  - reflexivity.
  - intros u Hu. apply filter_In in Hu. destruct Hu as [Hu Hp].
    simpl. apply H; [exact Hu | ]. apply N.eqb_eq. exact Hp.
Qed.

(** After an insertion the patient always has a most recent test. *)
Lemma latestTest_inserted_some (t : TestDoc) (db : Db) :
  exists latest, latestTest (patientId t) (inserted t db) = Some latest.
Proof.
  unfold latestTest, inserted. simpl.
  destruct (sortByDateDesc _) as [ | h r] eqn:E.
  - apply sortByDateDesc_nil in E.
    rewrite filter_app in E. simpl in E.
    unfold Test.ofPatient at 2 in E. rewrite N.eqb_refl in E.
    destruct (List.filter _ (tests db)); discriminate E.
  - exists h. reflexivity.
Qed.

Lemma latestTest_recomputed (id id' : ObjectId) (db : Db) :
  latestTest id' (recomputed id db) = latestTest id' db.
Proof. unfold latestTest. rewrite recomputed_tests. reflexivity. Qed.

(** The classification agrees with the specification's wording on every
    type and value. *)
Lemma isCritical_spec (type value : string) :
  isCritical type value = true <-> Spec.critical type value.
Proof.
  unfold Spec.critical. split.
  - intro H.
    destruct (String.eqb_spec type "Blood Pressure") as [-> | N1].
    { left. split; [reflexivity | apply isCritical_bloodPressure; exact H]. }
    destruct (String.eqb_spec type "Respiratory Rate") as [-> | N2].
    { right; left. split; [reflexivity | apply isCritical_respiratoryRate; exact H]. }
    destruct (String.eqb_spec type "Blood Oxygen Level") as [-> | N3].
    { right; right; left. split; [reflexivity | apply isCritical_bloodOxygen; exact H]. }
    destruct (String.eqb_spec type "Heartbeat Rate") as [-> | N4].
    { right; right; right. split; [reflexivity | apply isCritical_heartbeatRate; exact H]. }
    rewrite isCritical_other in H; [discriminate H | ].
    simpl. intuition congruence.
  - intros [[-> H] | [[-> H] | [[-> H] | [-> H]]]].
    + apply isCritical_bloodPressure; exact H.
    + apply isCritical_respiratoryRate; exact H.
    + apply isCritical_bloodOxygen; exact H.
    + apply isCritical_heartbeatRate; exact H.
Qed.

(** ** The classification thresholds *)

Example Number_200 : JS.Number "200" = JS.lit 200.
Proof. reflexivity. Qed.

Example Number_padded : JS.Number " 12 " = JS.lit 12.
Proof. reflexivity. Qed.

Example Number_empty : JS.Number "" = S754_zero false.
Proof. reflexivity. Qed.

Example Number_tenth : JS.Number "0.1" = S754_finite false 7205759403792794 (-56).
Proof. reflexivity. Qed.

Example Number_ties_to_even : JS.Number "9007199254740993" = JS.lit 9007199254740992.
Proof. reflexivity. Qed.

Example Number_hex : JS.Number "0x1F" = JS.lit 31.
Proof. reflexivity. Qed.

Example Number_overflow : JS.Number "1e400" = S754_infinity false.
Proof. reflexivity. Qed.

Example Number_words : JS.Number "abc" = JS.NaN.
Proof. reflexivity. Qed.

Example Number_pressure : JS.Number "120/80" = JS.NaN.
Proof. reflexivity. Qed.

Example split_pressure : JS.split "/" "120/80" = ["120"; "80"].
Proof. reflexivity. Qed.

Example split_no_slash : JS.split "/" "120" = ["120"].
Proof. reflexivity. Qed.

(** On whole-number readings the thresholds are those of the integers. *)
Lemma heartbeat_readings (n : nat) :
  (n < 400)%nat ->
  isCritical "Heartbeat Rate" (Spec.decimal n) = ((100 <? n) || (n <? 60))%nat.
Proof.
  intro H.
  assert (forallb (fun n => Bool.eqb (isCritical "Heartbeat Rate" (Spec.decimal n))
                                     ((100 <? n) || (n <? 60))%nat)
                  (seq 0 400) = true) as Hall by (vm_compute; reflexivity).
  rewrite forallb_forall in Hall.
  apply Bool.eqb_prop. apply Hall. apply in_seq. lia.
Qed.

Lemma respiratory_readings (n : nat) :
  (n < 100)%nat ->
  isCritical "Respiratory Rate" (Spec.decimal n) = ((30 <? n) || (n <? 12))%nat.
Proof.
  intro H.
  assert (forallb (fun n => Bool.eqb (isCritical "Respiratory Rate" (Spec.decimal n))
                                     ((30 <? n) || (n <? 12))%nat)
                  (seq 0 100) = true) as Hall by (vm_compute; reflexivity).
  rewrite forallb_forall in Hall.
  apply Bool.eqb_prop. apply Hall. apply in_seq. lia.
Qed.

Lemma oxygen_readings (n : nat) :
  (n < 200)%nat ->
  isCritical "Blood Oxygen Level" (Spec.decimal n) = (n <? 90)%nat.
Proof.
  intro H.
  assert (forallb (fun n => Bool.eqb (isCritical "Blood Oxygen Level" (Spec.decimal n))
                                     (n <? 90)%nat)
                  (seq 0 200) = true) as Hall by (vm_compute; reflexivity).
  rewrite forallb_forall in Hall.
  apply Bool.eqb_prop. apply Hall. apply in_seq. lia.
Qed.

Lemma pressure_readings (s d : nat) :
  (80 <= s < 200)%nat -> (50 <= d < 130)%nat ->
  isCritical "Blood Pressure" (Spec.decimal s ++ "/" ++ Spec.decimal d) =
  ((180 <? s) || (s <? 90) || (120 <? d) || (d <? 60))%nat.
Proof.
  intros Hs Hd.
  assert (forallb (fun s =>
            forallb (fun d =>
              Bool.eqb (isCritical "Blood Pressure" (Spec.decimal s ++ "/" ++ Spec.decimal d))
                       ((180 <? s) || (s <? 90) || (120 <? d) || (d <? 60))%nat)
              (seq 50 80))
            (seq 80 120) = true) as Hall by (vm_compute; reflexivity).
  rewrite forallb_forall in Hall.
  assert (In s (seq 80 120)) as Is by (apply in_seq; lia).
  specialize (Hall s Is). rewrite forallb_forall in Hall.
  apply Bool.eqb_prop. apply Hall. apply in_seq. lia.
Qed.

(** C1: the classification is a function of the test type and the test
    value alone.  A Blood Pressure value is critical exactly when its
    systolic number is above 180 or below 90 or its diastolic number is above
    120 or below 60; a Respiratory Rate value exactly when its number is
    above 30 or below 12; a Blood Oxygen Level value exactly when its number
    is below 90; a Heartbeat Rate value exactly when its number is above 100
    or below 60. *)
Theorem isCritical_thresholds :
  forall value : string,
    (isCritical "Blood Pressure" value = true <->
       Spec.above (Spec.systolic value) (JS.lit 180) \/
       Spec.below (Spec.systolic value) (JS.lit 90) \/
       Spec.above (Spec.diastolic value) (JS.lit 120) \/
       Spec.below (Spec.diastolic value) (JS.lit 60))
    /\ (isCritical "Respiratory Rate" value = true <->
       Spec.above (JS.Number value) (JS.lit 30) \/
       Spec.below (JS.Number value) (JS.lit 12))
    /\ (isCritical "Blood Oxygen Level" value = true <->
       Spec.below (JS.Number value) (JS.lit 90))
    /\ (isCritical "Heartbeat Rate" value = true <->
       Spec.above (JS.Number value) (JS.lit 100) \/
       Spec.below (JS.Number value) (JS.lit 60)).
Proof.
  intro value. repeat split.
  - apply isCritical_bloodPressure.
  - apply isCritical_bloodPressure.
  - apply isCritical_respiratoryRate.
  - apply isCritical_respiratoryRate.
  - apply isCritical_bloodOxygen.
  - apply isCritical_bloodOxygen.
  - apply isCritical_heartbeatRate.
  - apply isCritical_heartbeatRate.
Qed.

(** ** Adding a test and the flag *)

(** The flag after inserting a test that is newer than the patient's other
    tests. *)
Lemma addTest_newest (env : Env) (id : ObjectId) (db : Db) (ty v : string)
    (p : PatientDoc) :
  In ty testTypes -> v <> "" ->
  (forall t, In t (tests db) -> test_id t <> oid env) ->
  (forall u, In u (tests db) -> patientId u = id -> date u < now env) ->
  List.find (Patient.hasId id) (patients db) = Some p ->
  let db' := fst (addTestForPatient env id (Body.mkTest None None (Some ty) (Some v)) db) in
  tests db' = tests db ++ [newTest env id ty v] /\
  List.find (Patient.hasId id) (patients db') = Some (withCritical (isCritical ty v) p).
Proof.
  intros Henum Hne Hfresh Hnew Hp db'. subst db'.
  rewrite (addTestForPatient_valid env id (Body.mkTest None None (Some ty) (Some v))
             db ty v eq_refl eq_refl Henum Hne Hfresh).
  cbn [fst]. split.
  - rewrite recomputed_tests. reflexivity.
  - rewrite (recomputed_patient _ _ _ (latestTest_inserted env id ty v db Hnew)).
    cbn [inserted patients]. rewrite Hp. reflexivity.
Qed.

Lemma bloodPressure_in_enum : In "Blood Pressure" testTypes.
Proof. simpl. auto. Qed.

(** C2, amended: for every patient id and every request whose type is one
    of the four enumerated types and whose value is a non-empty string (the
    generated document id being unused), add-test answers 201, appends the
    new test record for that patient and then sets the flag of the patient
    stored under that id to the classification of the patient's most recent
    test, no test of the patient being newer than it, and leaves the other
    patients as they were.  In particular a Blood Pressure test "200/70"
    sets the flag to true and a later "110/70" sets it back to false, when
    each is inserted with a date after those of the patient's other tests.
    A request that fails schema validation (no type, no value, a type
    outside the enumeration or an empty value) is answered 400 and persists
    nothing. *)
Theorem addTest_persists_then_recomputes :
  (forall (env : Env) (id : ObjectId) (body : Body.test) (db : Db) (ty v : string),
     Body.type body = Some ty -> In ty testTypes ->
     Body.value body = Some v -> v <> "" ->
     (forall t, In t (tests db) -> test_id t <> oid env) ->
     exists latest,
       snd (addTestForPatient env id body db) =
         Normal (mkResponse 201 (testJson (newTest env id ty v)))
       /\ tests (fst (addTestForPatient env id body db)) =
          tests db ++ [newTest env id ty v]
       /\ latestTest id (fst (addTestForPatient env id body db)) = Some latest
       /\ (forall u, In u (tests (fst (addTestForPatient env id body db))) ->
             patientId u = id -> date u <= date latest)
       /\ List.find (Patient.hasId id)
            (patients (fst (addTestForPatient env id body db))) =
          option_map (withCritical (isCritical (type latest) (value latest)))
            (List.find (Patient.hasId id) (patients db))
       /\ (forall id', id' <> id ->
             List.find (Patient.hasId id')
               (patients (fst (addTestForPatient env id body db))) =
             List.find (Patient.hasId id') (patients db)))
  /\
  (forall (env1 env2 : Env) (id : ObjectId) (db : Db) (p : PatientDoc),
     List.find (Patient.hasId id) (patients db) = Some p ->
     (forall t, In t (tests db) -> test_id t <> oid env1 /\ test_id t <> oid env2) ->
     oid env1 <> oid env2 ->
     (forall u, In u (tests db) -> patientId u = id -> date u < now env1) ->
     now env1 < now env2 ->
     let db1 := fst (addTestForPatient env1 id (bloodPressure "200/70") db) in
     let db2 := fst (addTestForPatient env2 id (bloodPressure "110/70") db1) in
     List.find (Patient.hasId id) (patients db1) = Some (withCritical true p) /\
     List.find (Patient.hasId id) (patients db2) = Some (withCritical false p))
  /\
  (forall (env : Env) (id : ObjectId) (body : Body.test) (db : Db),
     Body.type body = None \/ Body.value body = None
     \/ (exists ty, Body.type body = Some ty /\ ~ In ty testTypes)
     \/ Body.value body = Some "" ->
     addTestForPatient env id body db =
     (db, Normal (mkResponse 400 (errorJson ValidationError)))).
Proof.
  split; [ | split].
  - intros env id body db ty v Hty Henum Hv Hne Hfresh.
    rewrite (addTestForPatient_valid env id body db ty v Hty Hv Henum Hne Hfresh).
    cbn [fst snd].
    destruct (latestTest_inserted_some (newTest env id ty v) db) as [latest Hl].
    cbn [newTest patientId] in Hl.
    exists latest. repeat split.
    + rewrite recomputed_tests. reflexivity.
    + rewrite latestTest_recomputed. exact Hl.
    + intros u Hu Hid. rewrite recomputed_tests in Hu.
      destruct (latestTest_newest _ _ _ Hl) as (_ & _ & Hmax). apply Hmax; assumption.
    + rewrite (recomputed_patient _ _ _ Hl). reflexivity.
    + intros id' Hid. rewrite recomputed_other by exact Hid. reflexivity.
  - intros env1 env2 id db p Hp Hfresh Hneq Hold Hclock db1 db2.
    assert ("200/70" <> "") as N1 by discriminate.
    assert ("110/70" <> "") as N2 by discriminate.
    destruct (addTest_newest env1 id db "Blood Pressure" "200/70" p
                bloodPressure_in_enum N1 (fun t Ht => proj1 (Hfresh t Ht)) Hold Hp)
      as [Ht1 Hp1].
    fold (bloodPressure "200/70") in Ht1, Hp1. fold db1 in Ht1, Hp1.
    split; [exact Hp1 | ].
    assert (forall t, In t (tests db1) -> test_id t <> oid env2) as Hfresh2.
    { intros t Ht. rewrite Ht1 in Ht. apply in_app_or in Ht.
      destruct Ht as [Ht | [<- | []]].
      + apply (Hfresh t Ht).
      + simpl. exact Hneq. }
    assert (forall u, In u (tests db1) -> patientId u = id -> date u < now env2) as Hold2.
    { intros u Hu Hid. rewrite Ht1 in Hu. apply in_app_or in Hu.
      destruct Hu as [Hu | [<- | []]].
      + specialize (Hold u Hu Hid). lia.
      + simpl. exact Hclock. }
    destruct (addTest_newest env2 id db1 "Blood Pressure" "110/70" _
                bloodPressure_in_enum N2 Hfresh2 Hold2 Hp1) as [_ Hp2].
    exact Hp2.
  - intros env id body db H.
    apply addTestForPatient_invalid.
    destruct (Body.type body) as [ty | ]; [ | exact I].
    destruct (Body.value body) as [v | ]; [ | exact I].
    destruct H as [H | [H | [(ty' & Hty & Hout) | H]]]; try discriminate H.
    + injection Hty as <-.
      destruct (Test.inEnum ty) eqn:E; [ | reflexivity].
      apply inEnum_In in E. contradiction.
    + injection H as ->. apply andb_false_r.
Qed.

(** ** The wards of the examples *)

Lemma ward_db1_eq : Ward.db1 = mkDb [Ward.annDoc] [Ward.test2].
Proof. reflexivity. Qed.

Lemma ward_db2_eq :
  Ward.db2 = mkDb [Ward.annDoc] [mkTest 2%N 1%N 9000 "Heartbeat Rate" "72"].
Proof. reflexivity. Qed.

Lemma addTest_persists_then_recomputes_witness :
  (exists latest,
     snd (addTestForPatient (mkEnv 3000 3%N) 1%N (bloodPressure "200/70") Ward.db1) =
       Normal (mkResponse 201
                 (testJson (newTest (mkEnv 3000 3%N) 1%N "Blood Pressure" "200/70")))
     /\ tests (fst (addTestForPatient (mkEnv 3000 3%N) 1%N (bloodPressure "200/70") Ward.db1)) =
        tests Ward.db1 ++ [newTest (mkEnv 3000 3%N) 1%N "Blood Pressure" "200/70"]
     /\ latestTest 1%N
          (fst (addTestForPatient (mkEnv 3000 3%N) 1%N (bloodPressure "200/70") Ward.db1)) =
        Some latest
     /\ (forall u,
           In u (tests (fst (addTestForPatient (mkEnv 3000 3%N) 1%N
                               (bloodPressure "200/70") Ward.db1))) ->
           patientId u = 1%N -> date u <= date latest)
     /\ List.find (Patient.hasId 1%N)
          (patients (fst (addTestForPatient (mkEnv 3000 3%N) 1%N
                            (bloodPressure "200/70") Ward.db1))) =
        option_map (withCritical (isCritical (type latest) (value latest)))
          (List.find (Patient.hasId 1%N) (patients Ward.db1))
     /\ (forall id', id' <> 1%N ->
           List.find (Patient.hasId id')
             (patients (fst (addTestForPatient (mkEnv 3000 3%N) 1%N
                               (bloodPressure "200/70") Ward.db1))) =
           List.find (Patient.hasId id') (patients Ward.db1)))
  /\
  (let db1 := fst (addTestForPatient (mkEnv 3000 3%N) 1%N (bloodPressure "200/70") Ward.db1) in
   let db2 := fst (addTestForPatient (mkEnv 4000 4%N) 1%N (bloodPressure "110/70") db1) in
   List.find (Patient.hasId 1%N) (patients db1) = Some (withCritical true Ward.annDoc) /\
   List.find (Patient.hasId 1%N) (patients db2) = Some (withCritical false Ward.annDoc))
  /\
  addTestForPatient (mkEnv 3000 3%N) 1%N
    (Body.mkTest None None (Some "Temperature") (Some "39")) Ward.db1 =
  (Ward.db1, Normal (mkResponse 400 (errorJson ValidationError))).
Proof.
  split; [ | split].
  - apply (proj1 addTest_persists_then_recomputes
             (mkEnv 3000 3%N) 1%N (bloodPressure "200/70") Ward.db1
             "Blood Pressure" "200/70").
    + reflexivity.
    + simpl; auto.
    + reflexivity.
    + discriminate.
    + intros t [<- | []]. simpl. discriminate.
  - apply (proj1 (proj2 addTest_persists_then_recomputes)
             (mkEnv 3000 3%N) (mkEnv 4000 4%N) 1%N Ward.db1 Ward.annDoc).
    + reflexivity.
    + intros t [<- | []]. simpl. split; discriminate.
    + simpl. discriminate.
    + intros u [<- | []] _. simpl. lia.
    + simpl. lia.
  - apply (proj2 (proj2 addTest_persists_then_recomputes) (mkEnv 3000 3%N) 1%N
             (Body.mkTest None None (Some "Temperature") (Some "39")) Ward.db1).
    right; right; left. exists "Temperature". split; [reflexivity | ].
    simpl. intros [H | [H | [H | [H | []]]]]; discriminate H.
Defined.

(** C2 as stated fails on a request whose type is outside the enumeration:
    the answer is 400 and no test record is stored. *)
Lemma addTest_unknown_type_not_persisted :
  tests (fst (addTestForPatient (mkEnv 3000 3%N) 1%N
                (Body.mkTest None None (Some "Temperature") (Some "39")) Ward.db1))
    = tests Ward.db1
  /\ snd (addTestForPatient (mkEnv 3000 3%N) 1%N
            (Body.mkTest None None (Some "Temperature") (Some "39")) Ward.db1)
    = Normal (mkResponse 400 (errorJson ValidationError)).
Proof. split; reflexivity. Qed.

(** C10, amended: add-test builds the new test from the path id and the
    body's type and value only, so a date or a patientId in the body is
    ignored: the stored test carries the insertion time and the path id.  The
    just-inserted test is the patient's most recent test at recomputation
    time whenever every other stored test of that patient has an earlier
    date. *)
Theorem addTest_ignores_body_date_and_owner :
  forall (env : Env) (id : ObjectId) (body : Body.test) (db : Db) (ty v : string),
    Body.type body = Some ty -> In ty testTypes ->
    Body.value body = Some v -> v <> "" ->
    (forall t, In t (tests db) -> test_id t <> oid env) ->
    addTestForPatient env id body db =
      addTestForPatient env id (Body.mkTest None None (Some ty) (Some v)) db
    /\ snd (addTestForPatient env id body db) =
       Normal (mkResponse 201 (testJson (mkTest (oid env) id (now env) ty v)))
    /\ tests (fst (addTestForPatient env id body db)) =
       tests db ++ [mkTest (oid env) id (now env) ty v]
    /\ ((forall u, In u (tests db) -> patientId u = id -> date u < now env) ->
        latestTest id (fst (addTestForPatient env id body db)) =
        Some (mkTest (oid env) id (now env) ty v)).
Proof.
  intros env id body db ty v Hty Henum Hv Hne Hfresh.
  rewrite (addTestForPatient_valid env id body db ty v Hty Hv Henum Hne Hfresh).
  rewrite (addTestForPatient_valid env id (Body.mkTest None None (Some ty) (Some v))
             db ty v eq_refl eq_refl Henum Hne Hfresh).
  cbn [fst snd]. repeat split.
  - rewrite recomputed_tests. reflexivity.
  - intro Hold. rewrite latestTest_recomputed.
    apply (latestTest_inserted env id ty v db Hold).
Qed.

Lemma addTest_ignores_body_date_and_owner_witness :
  addTestForPatient (mkEnv 3000 3%N) 1%N
    (Body.mkTest (Some 7%N) (Some 1) (Some "Blood Pressure") (Some "200/70")) Ward.db1 =
    addTestForPatient (mkEnv 3000 3%N) 1%N
      (Body.mkTest None None (Some "Blood Pressure") (Some "200/70")) Ward.db1
  /\ snd (addTestForPatient (mkEnv 3000 3%N) 1%N
            (Body.mkTest (Some 7%N) (Some 1) (Some "Blood Pressure") (Some "200/70"))
            Ward.db1) =
     Normal (mkResponse 201 (testJson (mkTest 3%N 1%N 3000 "Blood Pressure" "200/70")))
  /\ tests (fst (addTestForPatient (mkEnv 3000 3%N) 1%N
                   (Body.mkTest (Some 7%N) (Some 1) (Some "Blood Pressure") (Some "200/70"))
                   Ward.db1)) =
     tests Ward.db1 ++ [mkTest 3%N 1%N 3000 "Blood Pressure" "200/70"]
  /\ latestTest 1%N
       (fst (addTestForPatient (mkEnv 3000 3%N) 1%N
               (Body.mkTest (Some 7%N) (Some 1) (Some "Blood Pressure") (Some "200/70"))
               Ward.db1)) =
     Some (mkTest 3%N 1%N 3000 "Blood Pressure" "200/70").
Proof.
  destruct (addTest_ignores_body_date_and_owner (mkEnv 3000 3%N) 1%N
              (Body.mkTest (Some 7%N) (Some 1) (Some "Blood Pressure") (Some "200/70"))
              Ward.db1 "Blood Pressure" "200/70")
    as (H1 & H2 & H3 & H4).
  - reflexivity.
  - simpl; auto.
  - reflexivity.
  - discriminate.
  - intros t [<- | []]. simpl. discriminate.
  - split; [exact H1 | split; [exact H2 | split; [exact H3 | ]]].
    apply H4. intros u [<- | []] _. simpl. lia.
Defined.

(** C10 as stated fails once a stored test of the patient carries a later
    date (here 9000, set through update-test): the test inserted at time 3000
    is stored, yet the most recent test at recomputation time is the older
    record, and the flag follows that one. *)
Lemma addTest_not_most_recent :
  snd (addTestForPatient (mkEnv 3000 3%N) 1%N (bloodPressure "200/70") Ward.db2) =
    Normal (mkResponse 201 (testJson (mkTest 3%N 1%N 3000 "Blood Pressure" "200/70")))
  /\ latestTest 1%N
       (fst (addTestForPatient (mkEnv 3000 3%N) 1%N (bloodPressure "200/70") Ward.db2)) =
     Some (mkTest 2%N 1%N 9000 "Heartbeat Rate" "72")
  /\ latestTest 1%N
       (fst (addTestForPatient (mkEnv 3000 3%N) 1%N (bloodPressure "200/70") Ward.db2)) <>
     Some (mkTest 3%N 1%N 3000 "Blood Pressure" "200/70")
  /\ isCritical "Blood Pressure" "200/70" = true
  /\ option_map criticalCondition
       (List.find (Patient.hasId 1%N)
          (patients (fst (addTestForPatient (mkEnv 3000 3%N) 1%N
                            (bloodPressure "200/70") Ward.db2)))) = Some false.
Proof.
  repeat split; try reflexivity.
  vm_compute. discriminate.
Qed.

(** ** Types outside the enumeration *)

(** C5: a test whose type is none of the four enumerated types is
    classified non-critical, and when such a test is the patient's most
    recent one the recomputation returns normally and sets the flag of the
    patient stored under that id to false. *)
Theorem unknown_type_not_critical :
  forall (ty v : string),
    ~ In ty testTypes ->
    isCritical ty v = false
    /\ forall (id : ObjectId) (db : Db) (t : TestDoc),
         latestTest id db = Some t -> type t = ty ->
         snd (updatePatientCriticalCondition id db) = Normal tt
         /\ tests (fst (updatePatientCriticalCondition id db)) = tests db
         /\ List.find (Patient.hasId id)
              (patients (fst (updatePatientCriticalCondition id db))) =
            option_map (withCritical false) (List.find (Patient.hasId id) (patients db)).
Proof.
  intros ty v Hty. split.
  - apply isCritical_other. exact Hty.
  - intros id db t Hl Ht.
    rewrite updatePatientCriticalCondition_eq. cbn [fst snd].
    repeat split.
    + apply recomputed_tests.
    + rewrite (recomputed_patient _ _ _ Hl).
      rewrite isCritical_other by (rewrite Ht; exact Hty). reflexivity.
Qed.

Lemma unknown_type_not_critical_witness :
  isCritical "Temperature" "39" = false
  /\ snd (updatePatientCriticalCondition 1%N Ward.db4) = Normal tt
  /\ tests (fst (updatePatientCriticalCondition 1%N Ward.db4)) = tests Ward.db4
  /\ List.find (Patient.hasId 1%N)
       (patients (fst (updatePatientCriticalCondition 1%N Ward.db4))) =
     option_map (withCritical false) (List.find (Patient.hasId 1%N) (patients Ward.db4)).
Proof.
  assert (~ In "Temperature" testTypes) as H.
  { simpl. intros [H | [H | [H | [H | []]]]]; discriminate H. }
  destruct (unknown_type_not_critical "Temperature" "39" H) as [H1 H2].
  split; [exact H1 | ].
  apply (H2 1%N Ward.db4 (mkTest 5%N 1%N 5000 "Temperature" "39")); reflexivity.
Defined.

(** ** Values that are not numbers *)

Lemma not_above_nan (y : JS.number) : ~ Spec.above JS.NaN y.
Proof. unfold Spec.above. simpl. discriminate. Qed.

Lemma not_below_nan (y : JS.number) : ~ Spec.below JS.NaN y.
Proof. unfold Spec.below. simpl. discriminate. Qed.

Lemma isCritical_nonNumeric (ty v : string) :
  Spec.nonNumeric ty v -> isCritical ty v = false.
Proof.
  intro H. apply not_true_is_false. intro C.
  apply isCritical_spec in C. unfold Spec.nonNumeric in H.
  destruct C as [[-> C] | [[-> C] | [[-> C] | [-> C]]]]; simpl in H.
  - destruct H as [Hs Hd]. rewrite Hs, Hd in C.
    destruct C as [C | [C | [C | C]]];
      first [apply not_above_nan in C | apply not_below_nan in C]; exact C.
  - rewrite H in C.
    destruct C as [C | C];
      first [apply not_above_nan in C | apply not_below_nan in C]; exact C.
  - rewrite H in C. apply not_below_nan in C; exact C.
  - rewrite H in C.
    destruct C as [C | C];
      first [apply not_above_nan in C | apply not_below_nan in C]; exact C.
Qed.

Lemma updatePatientCriticalCondition_returns (id : ObjectId) (db : Db) :
  snd (updatePatientCriticalCondition id db) = Normal tt.
Proof. rewrite updatePatientCriticalCondition_eq. reflexivity. Qed.

(** C4, amended: the recomputation never fails on a value that is not a
    number.  [Number] yields NaN, every comparison with NaN is false, so when
    the patient's most recent test has such a value the recomputation returns
    normally and sets the flag of the patient stored under that id to
    false. *)
Theorem nonNumeric_value_not_critical :
  forall (id : ObjectId) (db : Db) (t : TestDoc),
    latestTest id db = Some t ->
    Spec.nonNumeric (type t) (value t) ->
    isCritical (type t) (value t) = false
    /\ snd (updatePatientCriticalCondition id db) = Normal tt
    /\ tests (fst (updatePatientCriticalCondition id db)) = tests db
    /\ List.find (Patient.hasId id)
         (patients (fst (updatePatientCriticalCondition id db))) =
       option_map (withCritical false) (List.find (Patient.hasId id) (patients db)).
Proof.
  intros id db t Hl Hn.
  rewrite updatePatientCriticalCondition_eq. cbn [fst snd].
  repeat split.
  - apply isCritical_nonNumeric. exact Hn.
  - apply recomputed_tests.
  - rewrite (recomputed_patient _ _ _ Hl).
    rewrite (isCritical_nonNumeric _ _ Hn). reflexivity.
Qed.

Lemma nonNumeric_value_not_critical_witness :
  isCritical "Heartbeat Rate" "abc" = false
  /\ snd (updatePatientCriticalCondition 1%N Ward.db3) = Normal tt
  /\ tests (fst (updatePatientCriticalCondition 1%N Ward.db3)) = tests Ward.db3
  /\ List.find (Patient.hasId 1%N)
       (patients (fst (updatePatientCriticalCondition 1%N Ward.db3))) =
     option_map (withCritical false) (List.find (Patient.hasId 1%N) (patients Ward.db3)).
Proof.
  apply (nonNumeric_value_not_critical 1%N Ward.db3
           (mkTest 3%N 1%N 3000 "Heartbeat Rate" "abc")).
  - reflexivity.
  - reflexivity.
Defined.

(** C4 as stated has no instance: no database, patient and most recent test
    of an enumerated type with a value that is not a number make the
    recomputation throw. *)
Lemma recomputation_never_throws :
  ~ (exists (id : ObjectId) (db : Db) (t : TestDoc) (e : Error),
       latestTest id db = Some t /\ In (type t) testTypes /\
       Spec.nonNumeric (type t) (value t) /\
       snd (updatePatientCriticalCondition id db) = Throw e).
Proof.
  intros (id & db & t & e & _ & _ & _ & H).
  rewrite updatePatientCriticalCondition_eq in H. discriminate H.
Qed.

(** ** Updating and deleting a test *)

Lemma updateTest_db (testId : ObjectId) (body : Body.test) (db : Db) :
  fst (updateTest testId body db) = db \/
  fst (updateTest testId body db) =
    mkDb (patients db) (updateFirst (Test.hasId testId) (Test.merge body) (tests db)).
Proof.
  unfold updateTest, tryCatch, bind, Test.findByIdAndUpdate. simpl.
  destruct (Test.validateUpdate body); simpl.
  - destruct (List.find (Test.hasId testId) (tests db)); simpl; auto.
  - auto.
Qed.

Lemma deleteTest_db (testId : ObjectId) (db : Db) :
  fst (deleteTest testId db) =
  mkDb (patients db) (removeFirst (Test.hasId testId) (tests db)).
Proof.
  unfold deleteTest, tryCatch, bind, Test.findByIdAndDelete. simpl.
  destruct (List.find (Test.hasId testId) (tests db)) eqn:E; simpl.
  - reflexivity.
  - rewrite (removeFirst_absent _ _ E). destruct db; reflexivity.
Qed.

Lemma other_not_hasId (testId : ObjectId) (x : TestDoc) :
  Test.hasId testId x = true -> negb (Test.hasId testId x) = false.
Proof. intros ->. reflexivity. Qed.

(** C3: update-test and delete-test leave every patient record as it was,
    so no critical flag changes; of the test store they touch only records
    with the given test id: all other records stay, in their order, update
    keeps the number of records and delete drops the first record with that
    id and nothing else. *)
Theorem updateTest_deleteTest_frame :
  forall (testId : ObjectId) (body : Body.test) (db : Db),
    patients (fst (updateTest testId body db)) = patients db
    /\ patients (fst (deleteTest testId db)) = patients db
    /\ (forall id : ObjectId,
          option_map criticalCondition
            (List.find (Patient.hasId id) (patients (fst (deleteTest testId db)))) =
          option_map criticalCondition (List.find (Patient.hasId id) (patients db)))
    /\ List.filter (fun t => negb (Test.hasId testId t))
         (tests (fst (updateTest testId body db))) =
       List.filter (fun t => negb (Test.hasId testId t)) (tests db)
    /\ List.length (tests (fst (updateTest testId body db))) = List.length (tests db)
    /\ List.filter (fun t => negb (Test.hasId testId t))
         (tests (fst (deleteTest testId db))) =
       List.filter (fun t => negb (Test.hasId testId t)) (tests db)
    /\ tests (fst (deleteTest testId db)) = removeFirst (Test.hasId testId) (tests db).
Proof.
  intros testId body db.
  rewrite deleteTest_db. cbn [patients tests].
  destruct (updateTest_db testId body db) as [-> | ->]; cbn [patients tests];
    repeat split;
    try (apply filter_removeFirst; apply other_not_hasId);
    try (apply filter_updateFirst; intros x Hx; unfold Test.hasId in *; simpl;
         rewrite Hx; reflexivity);
    try apply updateFirst_length.
Qed.

(** ** Listing the tests of a patient *)

Lemma getTestsForPatient_eq (id : ObjectId) (db : Db) :
  getTestsForPatient id db =
  (db, Normal (mkResponse 200
     (objectsJson (map testView
        (sortByDateDesc (List.filter (Test.ofPatient id) (tests db))))))).
Proof.
  unfold getTestsForPatient, tryCatch, bind, Test.exec, Test.select,
    Test.sortDateDesc, Test.find. simpl.
  reflexivity.
Qed.

(** C6, amended: list-tests-for-patient answers 200 with exactly that
    patient's tests, newest first, each returned record carrying the members
    _id, date, type and value. *)
Theorem getTestsForPatient_sorted_projected :
  forall (id : ObjectId) (db : Db),
    exists sorted : list TestDoc,
      getTestsForPatient id db =
        (db, Normal (mkResponse 200 (objectsJson (map testView sorted))))
      /\ Permutation sorted (List.filter (fun t => N.eqb (patientId t) id) (tests db))
      /\ StronglySorted newerFirst sorted.
Proof.
  intros id db.
  exists (sortByDateDesc (List.filter (Test.ofPatient id) (tests db))).
  split; [apply getTestsForPatient_eq | ]. split.
  - apply sortByDateDesc_perm.
  - apply sortByDateDesc_sorted.
Qed.

(** C6 as stated fails on the member _id: the record returned for the one
    test of the ward has a member outside the set type, value, date,
    createdAt, updatedAt. *)
Lemma getTestsForPatient_returns_id :
  exists (object : list (string * Test.Member)) (member : string),
    snd (getTestsForPatient 1%N Ward.db1) = Normal (mkResponse 200 (objectsJson [object]))
    /\ In member (map fst object)
    /\ ~ In member ["type"; "value"; "date"; "createdAt"; "updatedAt"].
Proof.
  exists (testView Ward.test2), "_id". split; [reflexivity | ]. split.
  - simpl. auto.
  - simpl. intros [H | [H | [H | [H | [H | []]]]]]; discriminate H.
Qed.

(** ** Patients by id *)

Lemma getPatientById_eq (id : ObjectId) (db : Db) :
  getPatientById id db =
  (db, Normal match List.find (Patient.hasId id) (patients db) with
              | Some p => mkResponse 200 (patientJson p)
              | None => notFound
              end).
Proof.
  unfold getPatientById, tryCatch, bind, Patient.findById. simpl.
  destruct (List.find (Patient.hasId id) (patients db)); reflexivity.
Qed.

Lemma updatePatient_absent (id : ObjectId) (body : Body.patient) (db : Db) :
  List.find (Patient.hasId id) (patients db) = None ->
  updatePatient id body db =
  (db, Normal (if Patient.validateUpdate body then notFound
               else mkResponse 400 (errorJson ValidationError))).
Proof.
  intro H. unfold updatePatient, tryCatch, bind, Patient.findByIdAndUpdate. simpl.
  destruct (Patient.validateUpdate body); simpl.
  - rewrite H. reflexivity.
  - reflexivity.
Qed.

Lemma deletePatient_absent (id : ObjectId) (db : Db) :
  List.find (Patient.hasId id) (patients db) = None ->
  deletePatient id db = (db, Normal notFound).
Proof.
  intro H. unfold deletePatient, tryCatch, bind, Patient.findByIdAndDelete. simpl.
  rewrite H. reflexivity.
Qed.

Lemma find_present (id : ObjectId) (l : list PatientDoc) (q : PatientDoc) :
  In q l -> patient_id q = id ->
  exists p, List.find (Patient.hasId id) l = Some p.
Proof.
  intros Hq Hid.
  destruct (List.find (Patient.hasId id) l) as [p | ] eqn:E.
  - exists p. reflexivity.
  - apply patient_absent with (p := q) in E; [contradiction | exact Hq].
Qed.

(** C7, amended: for every patient id absent from the patient store,
    get-patient-by-id and delete-patient answer 404, update-patient answers
    404 when its payload passes the update validators and 400 when it does
    not, and all three leave the database unchanged; for every id present,
    get-patient-by-id answers 200 with a stored record of that id. *)
Theorem absent_patient_not_found :
  forall (id : ObjectId) (db : Db),
    ((forall p, In p (patients db) -> patient_id p <> id) ->
       getPatientById id db = (db, Normal notFound)
       /\ deletePatient id db = (db, Normal notFound)
       /\ forall body : Body.patient,
            updatePatient id body db =
            (db, Normal (if Patient.validateUpdate body then notFound
                         else mkResponse 400 (errorJson ValidationError))))
    /\ (forall q, In q (patients db) -> patient_id q = id ->
          exists p, In p (patients db) /\ patient_id p = id
                    /\ getPatientById id db = (db, Normal (mkResponse 200 (patientJson p)))).
Proof.
  intros id db. split.
  - intro H. apply patient_absent in H. repeat split.
    + rewrite getPatientById_eq, H. reflexivity.
    + apply deletePatient_absent. exact H.
    + intro body. apply updatePatient_absent. exact H.
  - intros q Hq Hid.
    destruct (find_present id _ q Hq Hid) as [p Hp].
    exists p.
    destruct (find_split _ _ _ Hp) as (l1 & l2 & E & Hx & _).
    repeat split.
    + rewrite E. apply in_or_app. right. left. reflexivity.
    + apply N.eqb_eq. exact Hx.
    + rewrite getPatientById_eq, Hp. reflexivity.
Qed.

Lemma absent_patient_not_found_witness :
  (getPatientById 9%N Ward.db1 = (Ward.db1, Normal notFound)
   /\ deletePatient 9%N Ward.db1 = (Ward.db1, Normal notFound)
   /\ forall body : Body.patient,
        updatePatient 9%N body Ward.db1 =
        (Ward.db1, Normal (if Patient.validateUpdate body then notFound
                           else mkResponse 400 (errorJson ValidationError))))
  /\ (exists p, In p (patients Ward.db1) /\ patient_id p = 1%N
                /\ getPatientById 1%N Ward.db1 =
                   (Ward.db1, Normal (mkResponse 200 (patientJson p)))).
Proof.
  split.
  - apply (proj1 (absent_patient_not_found 9%N Ward.db1)).
    intros p [<- | []]. simpl. discriminate.
  - apply (proj2 (absent_patient_not_found 1%N Ward.db1) Ward.annDoc).
    + simpl. left. reflexivity.
    + reflexivity.
Defined.

(** C7 as stated fails for update-patient: with an id absent from the store
    and a payload that fails validation (an empty name) the answer is 400,
    not 404. *)
Lemma updatePatient_absent_invalid_400 :
  (forall p, In p (patients Ward.db1) -> patient_id p <> 9%N)
  /\ updatePatient 9%N
       (Body.mkPatient (Some "") None None None None None None) Ward.db1 =
     (Ward.db1, Normal (mkResponse 400 (errorJson ValidationError)))
  /\ mkResponse 400 (errorJson ValidationError) <> notFound.
Proof.
  repeat split.
  - intros p [<- | []]. simpl. discriminate.
  - discriminate.
Qed.

(** ** Deleting a patient *)

(** C8: for every patient id present in the store, delete-patient answers
    200 and removes exactly one patient record, the first one stored under
    that id, and leaves the test store as it was, so every test that
    references the deleted patient is still stored. *)
Theorem deletePatient_keeps_tests :
  forall (id : ObjectId) (db : Db) (q : PatientDoc),
    In q (patients db) -> patient_id q = id ->
    exists (p : PatientDoc) (before after : list PatientDoc),
      patients db = before ++ p :: after
      /\ patient_id p = id
      /\ (forall x, In x before -> patient_id x <> id)
      /\ deletePatient id db =
         (mkDb (before ++ after) (tests db),
          Normal (mkResponse 200 (messageJson "Patient deleted successfully")))
      /\ (forall t, In t (tests db) -> patientId t = id ->
            In t (tests (fst (deletePatient id db)))).
Proof.
  intros id db q Hq Hid.
  destruct (find_present id _ q Hq Hid) as [p Hp].
  destruct (find_split _ _ _ Hp) as (l1 & l2 & E & Hx & Hl1).
  assert (deletePatient id db =
          (mkDb (l1 ++ l2) (tests db),
           Normal (mkResponse 200 (messageJson "Patient deleted successfully")))) as Hdel.
  { unfold deletePatient, tryCatch, bind, Patient.findByIdAndDelete. simpl.
    rewrite Hp. simpl. rewrite E.
    rewrite (removeFirst_split _ l1 l2 p Hx Hl1). reflexivity. }
  exists p, l1, l2. repeat split.
  - exact E.
  - apply N.eqb_eq. exact Hx.
  - intros x Hin. apply N.eqb_neq. apply (Hl1 x Hin).
  - exact Hdel.
  - intros t Ht _. rewrite Hdel. exact Ht.
Qed.

Lemma deletePatient_keeps_tests_witness :
  exists (p : PatientDoc) (before after : list PatientDoc),
    patients Ward.db1 = before ++ p :: after
    /\ patient_id p = 1%N
    /\ (forall x, In x before -> patient_id x <> 1%N)
    /\ deletePatient 1%N Ward.db1 =
       (mkDb (before ++ after) (tests Ward.db1),
        Normal (mkResponse 200 (messageJson "Patient deleted successfully")))
    /\ (forall t, In t (tests Ward.db1) -> patientId t = 1%N ->
          In t (tests (fst (deletePatient 1%N Ward.db1)))).
Proof.
  apply (deletePatient_keeps_tests 1%N Ward.db1 Ward.annDoc).
  - simpl. left. reflexivity.
  - reflexivity.
Defined.

(** ** The type of every stored test *)

Lemma Forall_updateFirst {A} (P : A -> Prop) (p : A -> bool) (f : A -> A) (l : list A) :
  (forall x, P x -> P (f x)) -> Forall P l -> Forall P (updateFirst p f l).
Proof.
  intros Hf H. induction H as [ | x r Hx Hr IH]; simpl.
  - constructor.
  - destruct (p x); constructor; auto.
Qed.

Lemma Forall_removeFirst {A} (P : A -> Prop) (p : A -> bool) (l : list A) :
  Forall P l -> Forall P (removeFirst p l).
Proof.
  intros H. induction H as [ | x r Hx Hr IH]; simpl.
  - constructor.
  - destruct (p x); [exact Hr | constructor; auto].
Qed.

Lemma addPatient_tests (env : Env) (body : Body.patient) (db : Db) :
  tests (fst (addPatient env body db)) = tests db.
Proof.
  unfold addPatient, tryCatch, bind, Patient.save. simpl.
  destruct (Body.name body), (Body.age body), (Body.gender body); simpl;
    try reflexivity.
  destruct (nonEmpty s && nonEmpty s0); simpl; try reflexivity.
  destruct (existsb (Patient.hasId (oid env)) (patients db)); reflexivity.
Qed.

Lemma updatePatient_tests (id : ObjectId) (body : Body.patient) (db : Db) :
  tests (fst (updatePatient id body db)) = tests db.
Proof.
  unfold updatePatient, tryCatch, bind, Patient.findByIdAndUpdate. simpl.
  destruct (Patient.validateUpdate body); simpl; try reflexivity.
  destruct (List.find (Patient.hasId id) (patients db)); reflexivity.
Qed.

Lemma deletePatient_tests (id : ObjectId) (db : Db) :
  tests (fst (deletePatient id db)) = tests db.
Proof.
  unfold deletePatient, tryCatch, bind, Patient.findByIdAndDelete. simpl.
  destruct (List.find (Patient.hasId id) (patients db)); reflexivity.
Qed.

Lemma getPatientHistory_db (id : ObjectId) (db : Db) :
  fst (getPatientHistory id db) = db.
Proof.
  unfold getPatientHistory, tryCatch, bind, Patient.findById. simpl.
  destruct (List.find (Patient.hasId id) (patients db)); reflexivity.
Qed.

Lemma getTestById_db (testId : ObjectId) (db : Db) :
  fst (getTestById testId db) = db.
Proof.
  unfold getTestById, tryCatch, bind, Test.findById. simpl.
  destruct (List.find (Test.hasId testId) (tests db)); reflexivity.
Qed.

Lemma addTestForPatient_db (env : Env) (id : ObjectId) (body : Body.test) (db : Db) :
  fst (addTestForPatient env id body db) = db
  \/ exists ty v,
       In ty testTypes /\
       fst (addTestForPatient env id body db) =
       recomputed id (inserted (newTest env id ty v) db).
Proof.
  destruct (Body.type body) as [ty | ] eqn:Hty;
    [ | left; rewrite addTestForPatient_invalid; [reflexivity | rewrite Hty; exact I]].
  destruct (Body.value body) as [v | ] eqn:Hv;
    [ | left; rewrite addTestForPatient_invalid; [reflexivity | rewrite Hty, Hv; exact I]].
  destruct (Test.inEnum ty && nonEmpty v) eqn:Hok;
    [ | left; rewrite addTestForPatient_invalid;
        [reflexivity | rewrite Hty, Hv; exact Hok]].
  apply andb_true_iff in Hok. destruct Hok as [Henum Hne].
  destruct (existsb (Test.hasId (oid env)) (tests db)) eqn:Hdup.
  - left. unfold addTestForPatient, tryCatch, bind, Test.save.
    cbn [Body.patientId Body.type Body.value].
    rewrite Hty, Hv, Henum, Hne, Hdup. reflexivity.
  - right. exists ty, v. split; [apply inEnum_In; exact Henum | ].
    rewrite (addTestForPatient_valid env id body db ty v Hty Hv).
    + reflexivity.
    + apply inEnum_In. exact Henum.
    + apply nonEmpty_neq. exact Hne.
    + apply test_fresh. exact Hdup.
Qed.

Lemma addTestForPatient_typesValid (env : Env) (id : ObjectId) (body : Body.test)
    (db : Db) :
  typesValid db -> typesValid (fst (addTestForPatient env id body db)).
Proof.
  intro H.
  destruct (addTestForPatient_db env id body db) as [-> | (ty & v & Hty & ->)].
  - exact H.
  - unfold typesValid in *. rewrite recomputed_tests. cbn [inserted tests].
    apply Forall_app. split; [exact H | ].
    constructor; [exact Hty | constructor].
Qed.

Lemma updateTest_typesValid (testId : ObjectId) (body : Body.test) (db : Db) :
  typesValid db -> typesValid (fst (updateTest testId body db)).
Proof.
  intro H. unfold typesValid in *.
  unfold updateTest, tryCatch, bind, Test.findByIdAndUpdate. simpl.
  destruct (Test.validateUpdate body) eqn:Hv; simpl; [ | exact H].
  destruct (List.find (Test.hasId testId) (tests db)); simpl; [ | exact H].
  apply Forall_updateFirst; [ | exact H].
  intros x Hx. unfold Test.merge. simpl.
  unfold Test.validateUpdate in Hv.
  destruct (Body.type body) as [ty | ]; simpl.
  - apply andb_true_iff in Hv. apply inEnum_In. apply (proj1 Hv).
  - exact Hx.
Qed.

Lemma updateTestOperators_db (testId : ObjectId) (body : Body.testOperators) (db : Db) :
  fst (updateTestOperators testId body db) = db \/
  fst (updateTestOperators testId body db) =
    mkDb (patients db)
         (updateFirst (Test.hasId testId) (Test.applyOperators body) (tests db)).
Proof.
  unfold updateTestOperators, tryCatch, bind, Test.findByIdAndUpdateOperators. simpl.
  destruct (Test.validateUpdate (Body.op_set body)); simpl; [ | auto].
  destruct (Test.conflicting body); simpl; [auto | ].
  destruct (List.find (Test.hasId testId) (tests db)); simpl; auto.
Qed.

(** A body with members under [$set] only is the plain payload. *)
Lemma updateTestOperators_plain (testId : ObjectId) (body : Body.test) (db : Db) :
  updateTestOperators testId (Body.mkTestOperators body Body.noTest Body.noTest) db =
  updateTest testId body db.
Proof.
  unfold updateTestOperators, updateTest, tryCatch, bind,
    Test.findByIdAndUpdateOperators, Test.findByIdAndUpdate.
  cbn [Body.op_set Body.op_max Body.op_min].
  destruct (true && negb (Test.validateUpdate body)); [reflexivity | ].
  assert (Test.conflicting (Body.mkTestOperators body Body.noTest Body.noTest) = false)
    as ->.
  { unfold Test.conflicting, Test.clash. simpl.
    destruct (Body.patientId body), (Body.date body), (Body.type body),
      (Body.value body); reflexivity. }
  assert (forall t, Test.applyOperators (Body.mkTestOperators body Body.noTest Body.noTest) t
                    = Test.merge body t) as Happ by (intro t; reflexivity).
  destruct (List.find (Test.hasId testId) (tests db)) as [t | ]; [ | reflexivity].
  rewrite (updateFirst_ext _ _ _ _ Happ), Happ. reflexivity.
Qed.

(** Every request but an update that carries operators keeps the invariant
    that each stored test has one of the four enumerated types. *)
Lemma requests_without_operators_keep_test_types (env : Env) (req : Request) (db : Db) :
  isOperatorUpdate req = false ->
  typesValid db -> typesValid (fst (router env req db)).
Proof.
  intros Hop H. destruct req; try discriminate Hop; cbn [router].
  - unfold typesValid. rewrite addPatient_tests. exact H.
  - exact H.
  - exact H.
  - rewrite getPatientById_eq. exact H.
  - unfold typesValid. rewrite updatePatient_tests. exact H.
  - unfold typesValid. rewrite deletePatient_tests. exact H.
  - apply addTestForPatient_typesValid. exact H.
  - rewrite getTestsForPatient_eq. exact H.
  - apply updateTest_typesValid. exact H.
  - rewrite deleteTest_db. unfold typesValid in *. simpl.
    apply Forall_removeFirst. exact H.
  - rewrite getPatientHistory_db. exact H.
  - rewrite getTestById_db. exact H.
Qed.

(** C9, on the code: the invariant that every stored test has one of the
    four enumerated types is not kept by update-test.  The handler hands the
    body to [findByIdAndUpdate] as it is, and the update validators do not
    run on a member under [$max]: on a ward whose tests all have an
    enumerated type, the body [{ "$max": { "type": "~" } }] sent for the
    stored test 2 is answered 200 and leaves that test with the type "~",
    which is none of the four. *)
Theorem operator_update_breaks_test_types :
  typesValid Ward.db1
  /\ router (mkEnv 2500 0%N)
       (PUT_patients_id_tests_testId_operators 1%N 2%N maxTypeTilde) Ward.db1 =
     (mkDb [Ward.annDoc] [mkTest 2%N 1%N 2000 "~" "72"],
      Normal (mkResponse 200 (testJson (mkTest 2%N 1%N 2000 "~" "72"))))
  /\ ~ In "~" testTypes
  /\ ~ typesValid
        (fst (router (mkEnv 2500 0%N)
                (PUT_patients_id_tests_testId_operators 1%N 2%N maxTypeTilde)
                Ward.db1)).
Proof.
  assert (~ In "~" testTypes) as Hout.
  { simpl. intros [H | [H | [H | [H | []]]]]; discriminate H. }
  split; [ | split; [reflexivity | split; [exact Hout | ]]].
  - unfold typesValid. simpl. constructor; [ | constructor]. simpl. auto.
  - intro H. unfold typesValid in H.
    change (tests (fst (router (mkEnv 2500 0%N)
                          (PUT_patients_id_tests_testId_operators 1%N 2%N maxTypeTilde)
                          Ward.db1)))
      with [mkTest 2%N 1%N 2000 "~" "72"] in H.
    inversion H as [ | ? ? Hty _]; subst. exact (Hout Hty).
Qed.

(** ** Every handler answers *)

Lemma addTestForPatient_returns (env : Env) (id : ObjectId) (body : Body.test) (db : Db) :
  exists r, snd (addTestForPatient env id body db) = Normal r.
Proof.
  unfold addTestForPatient, tryCatch, bind, Test.save.
  cbn [Body.patientId Body.type Body.value Body.date].
  destruct (Body.type body) as [ty | ]; [ | eexists; reflexivity].
  destruct (Body.value body) as [v | ]; [ | eexists; reflexivity].
  destruct (Test.inEnum ty && nonEmpty v); [ | eexists; reflexivity].
  destruct (existsb (Test.hasId (oid env)) (tests db)); [eexists; reflexivity | ].
  rewrite updatePatientCriticalCondition_eq. eexists. reflexivity.
Qed.

(** Each handler catches what its body throws: a request is always answered. *)
Lemma router_returns (env : Env) (req : Request) (db : Db) :
  exists r, snd (router env req db) = Normal r.
Proof.
  destruct req; cbn [router].
  - unfold addPatient, tryCatch, bind, Patient.save.
    destruct (Body.name body), (Body.age body), (Body.gender body);
      try (eexists; reflexivity).
    destruct (nonEmpty s && nonEmpty s0); [ | eexists; reflexivity].
    destruct (existsb (Patient.hasId (oid env)) (patients db)); eexists; reflexivity.
  - eexists. reflexivity.
  - eexists. reflexivity.
  - rewrite getPatientById_eq. eexists. reflexivity.
  - unfold updatePatient, tryCatch, bind, Patient.findByIdAndUpdate.
    destruct (true && negb (Patient.validateUpdate body)); [eexists; reflexivity | ].
    destruct (List.find (Patient.hasId id) (patients db)); eexists; reflexivity.
  - unfold deletePatient, tryCatch, bind, Patient.findByIdAndDelete.
    destruct (List.find (Patient.hasId id) (patients db)); eexists; reflexivity.
  - apply addTestForPatient_returns.
  - rewrite getTestsForPatient_eq. eexists. reflexivity.
  - unfold updateTest, tryCatch, bind, Test.findByIdAndUpdate.
    destruct (true && negb (Test.validateUpdate body)); [eexists; reflexivity | ].
    destruct (List.find (Test.hasId testId) (tests db)); eexists; reflexivity.
  - unfold updateTestOperators, tryCatch, bind, Test.findByIdAndUpdateOperators.
    destruct (true && negb (Test.validateUpdate (Body.op_set body)));
      [eexists; reflexivity | ].
    destruct (Test.conflicting body); [eexists; reflexivity | ].
    destruct (List.find (Test.hasId testId) (tests db)); eexists; reflexivity.
  - unfold deleteTest, tryCatch, bind, Test.findByIdAndDelete.
    destruct (List.find (Test.hasId testId) (tests db)); eexists; reflexivity.
  - unfold getPatientHistory, tryCatch, bind, Patient.findById.
    cbn [ret]. cbv beta iota.
    destruct (List.find (Patient.hasId id) (patients db)); eexists; reflexivity.
  - unfold getTestById, tryCatch, bind, Test.findById.
    destruct (List.find (Test.hasId testId) (tests db)); eexists; reflexivity.
Qed.

(** A heartbeat value that is not a number is stored and answered 201, with
    the flag left false. *)
Example addTest_words_201 :
  addTestForPatient (mkEnv 3000 3%N) 1%N (Ward.heartbeat "abc") Ward.db1 =
  (Ward.db3,
   Normal (mkResponse 201 (testJson (mkTest 3%N 1%N 3000 "Heartbeat Rate" "abc")))).
Proof. reflexivity. Qed.

Example ward_db3_eq :
  Ward.db3 =
  mkDb [Ward.annDoc] [Ward.test2; mkTest 3%N 1%N 3000 "Heartbeat Rate" "abc"].
Proof. reflexivity. Qed.

(** * Further properties of the modelled code *)

(** ** [split] and the parts of a value *)

Lemma split_not_nil (sep : ascii) (s : string) : JS.split sep s <> [].
Proof. rewrite split_cut. discriminate. Qed.

Lemma append_empty_r (s : string) : (s ++ "")%string = s.
Proof. induction s as [ | c r IH]; simpl; congruence. Qed.

(** X19: splitting a string at a separator and joining the parts with the
    same separator gives the string back; the split has at least one part
    and no part of a split at the slash contains a slash. *)
Theorem split_join_roundtrip :
  forall (sep : ascii) (s : string),
    join sep (JS.split sep s) = s
    /\ (1 <= List.length (JS.split sep s))%nat
    /\ Forall (fun part => slashFree part = true) (JS.split "/" s).
Proof.
  intros sep s. split; [ | split].
  - induction s as [ | c r IH]; simpl.
    + reflexivity.
    + destruct (Ascii.eqb_spec c sep) as [-> | _].
      * simpl. destruct (JS.split sep r) as [ | h t] eqn:E.
        { destruct (split_not_nil sep r E). }
        rewrite IH. reflexivity.
      * destruct (JS.split sep r) as [ | h t] eqn:E.
        { destruct (split_not_nil sep r E). }
        simpl in IH. destruct t as [ | h' t'].
        { simpl. rewrite IH. reflexivity. }
        simpl. rewrite <- IH. reflexivity.
  - destruct (JS.split sep s) as [ | h t] eqn:E.
    + destruct (split_not_nil sep s E).
    + simpl. lia.
  - induction s as [ | c r IH]; simpl.
    + constructor; [reflexivity | constructor].
    + destruct (Ascii.eqb c "/") eqn:Ec.
      * constructor; [reflexivity | exact IH].
      * destruct (JS.split "/" r) as [ | h t].
        { constructor; [simpl; rewrite Ec; reflexivity | constructor]. }
        inversion IH as [ | ? ? Hh Ht]; subst.
        constructor; [simpl; rewrite Ec, Hh; reflexivity | exact Ht].
Qed.

Lemma cut_slashFree (s : string) :
  slashFree s = true -> Spec.cut "/" s = (s, None).
Proof.
  induction s as [ | c r IH]; simpl; intro H.
  - reflexivity.
  - apply andb_true_iff in H. destruct H as [Hc Hr].
    apply negb_true_iff in Hc. rewrite Hc, (IH Hr). reflexivity.
Qed.

Lemma cut_at_slash (a r : string) :
  slashFree a = true -> Spec.cut "/" (a ++ String "/" r) = (a, Some r).
Proof.
  induction a as [ | c a' IH]; simpl; intro H.
  - reflexivity.
  - apply andb_true_iff in H. destruct H as [Hc Hr].
    apply negb_true_iff in Hc. rewrite Hc, (IH Hr). reflexivity.
Qed.

Lemma isCritical_bloodPressure_eq (value : string) :
  isCritical "Blood Pressure" value =
  JS.gt (Spec.systolic value) (JS.lit 180) || JS.lt (Spec.systolic value) (JS.lit 90)
  || JS.gt (Spec.diastolic value) (JS.lit 120) || JS.lt (Spec.diastolic value) (JS.lit 60).
Proof.
  unfold isCritical.
  change (String.eqb "Blood Pressure" "Blood Pressure") with true. cbv iota zeta.
  rewrite systolic_split, diastolic_split. reflexivity.
Qed.

Lemma gt_nan (y : JS.number) : JS.gt JS.NaN y = false.
Proof. destruct y as [ | | | ]; reflexivity. Qed.

Lemma lt_nan (y : JS.number) : JS.lt JS.NaN y = false.
Proof. reflexivity. Qed.

(** X16: a Blood Pressure value without a slash has no diastolic part, and
    is classified by its single number as a systolic reading alone. *)
Theorem bloodPressure_without_slash :
  forall value : string,
    slashFree value = true ->
    JS.split "/" value = [value]
    /\ isCritical "Blood Pressure" value =
       JS.gt (JS.Number value) (JS.lit 180) || JS.lt (JS.Number value) (JS.lit 90).
Proof.
  intros value H. split.
  - rewrite split_cut, (cut_slashFree value H). reflexivity.
  - rewrite isCritical_bloodPressure_eq.
    unfold Spec.systolic, Spec.diastolic. rewrite (cut_slashFree value H). simpl.
    rewrite gt_nan, lt_nan, !orb_false_r. reflexivity.
Qed.

Lemma bloodPressure_without_slash_witness :
  JS.split "/" "120" = ["120"]
  /\ isCritical "Blood Pressure" "120" =
     JS.gt (JS.Number "120") (JS.lit 180) || JS.lt (JS.Number "120") (JS.lit 90).
Proof. apply (bloodPressure_without_slash "120"). reflexivity. Defined.

(** X18: only the first two parts of a Blood Pressure value are read: what
    follows a second slash does not change the classification. *)
Theorem bloodPressure_third_part_ignored :
  forall a b c : string,
    slashFree a = true -> slashFree b = true ->
    isCritical "Blood Pressure" (a ++ String "/" (b ++ String "/" c)) =
    isCritical "Blood Pressure" (a ++ String "/" b).
Proof.
  intros a b c Ha Hb.
  rewrite !isCritical_bloodPressure_eq.
  unfold Spec.systolic, Spec.diastolic.
  rewrite !(cut_at_slash a _ Ha). simpl.
  rewrite (cut_at_slash b c Hb), (cut_slashFree b Hb). reflexivity.
Qed.

Lemma bloodPressure_third_part_ignored_witness :
  isCritical "Blood Pressure" "120/80/999" = isCritical "Blood Pressure" "120/80".
Proof.
  apply (bloodPressure_third_part_ignored "120" "80" "999"); reflexivity.
Defined.

(** ** Blank and padded values *)

Lemma list_ascii_of_string_app (a b : string) :
  list_ascii_of_string (a ++ b) = list_ascii_of_string a ++ list_ascii_of_string b.
Proof. induction a as [ | c r IH]; simpl; congruence. Qed.

Lemma list_ascii_of_spaces (n : nat) :
  list_ascii_of_string (spaces n) = repeat " "%char n.
Proof. induction n as [ | k IH]; simpl; congruence. Qed.

Lemma trimStart_repeat (n : nat) (l : list ascii) :
  JS.trimStart (repeat " "%char n ++ l) = JS.trimStart l.
Proof. induction n as [ | k IH]; simpl; [reflexivity | exact IH]. Qed.

Lemma trimStart_app (l r : list ascii) :
  JS.trimStart (l ++ r) =
  match JS.trimStart l with
  | [] => JS.trimStart r
  | t => t ++ r
  end.
Proof.
  induction l as [ | c l' IH]; simpl.
  - destruct (JS.trimStart r); reflexivity.
  - destruct (JS.StrWhiteSpaceChar c); [exact IH | reflexivity].
Qed.

Lemma rev_repeat {A} (x : A) (n : nat) : rev (repeat x n) = repeat x n.
Proof.
  induction n as [ | k IH]; simpl.
  - reflexivity.
  - rewrite IH. clear IH. induction k as [ | j IH]; simpl; congruence.
Qed.

Lemma trim_padded (n m : nat) (l : list ascii) :
  JS.trim (repeat " "%char n ++ l ++ repeat " "%char m) = JS.trim l.
Proof.
  unfold JS.trim. rewrite trimStart_repeat, trimStart_app.
  destruct (JS.trimStart l) as [ | c t] eqn:E.
  - rewrite <- (app_nil_r (repeat " "%char m)), trimStart_repeat. reflexivity.
  - rewrite rev_app_distr, rev_repeat, trimStart_repeat. reflexivity.
Qed.

Lemma Number_padded_eq (n m : nat) (s : string) :
  JS.Number (spaces n ++ s ++ spaces m) = JS.Number s.
Proof.
  unfold JS.Number, JS.StringToNumber.
  rewrite !list_ascii_of_string_app, !list_ascii_of_spaces, trim_padded.
  reflexivity.
Qed.

Lemma Number_spaces (n : nat) : JS.Number (spaces n) = S754_zero false.
Proof.
  rewrite <- (append_empty_r (spaces n)).
  change (spaces n ++ "")%string with (spaces n ++ "" ++ spaces 0)%string.
  rewrite Number_padded_eq. reflexivity.
Qed.

Lemma slashFree_spaces (n : nat) : slashFree (spaces n) = true.
Proof. induction n as [ | k IH]; simpl; [reflexivity | exact IH]. Qed.

(** X15: a value made only of spaces passes the [required] validator when
    it is not empty, converts to the number 0, and is classified critical
    for each of the four enumerated types. *)
Theorem blank_value_is_critical :
  forall (ty : string) (n : nat),
    In ty testTypes ->
    nonEmpty (spaces (S n)) = true
    /\ JS.Number (spaces (S n)) = S754_zero false
    /\ isCritical ty (spaces (S n)) = true.
Proof.
  intros ty n Hty. split; [reflexivity | ]. split; [apply Number_spaces | ].
  simpl in Hty.
  destruct Hty as [<- | [<- | [<- | [<- | []]]]].
  - destruct (bloodPressure_without_slash (spaces (S n)) (slashFree_spaces (S n)))
      as [_ ->].
    rewrite Number_spaces. reflexivity.
  - apply isCritical_respiratoryRate. right. rewrite Number_spaces. reflexivity.
  - apply isCritical_bloodOxygen. rewrite Number_spaces. reflexivity.
  - apply isCritical_heartbeatRate. right. rewrite Number_spaces. reflexivity.
Qed.

Lemma blank_value_is_critical_witness :
  nonEmpty " " = true
  /\ JS.Number " " = S754_zero false
  /\ isCritical "Blood Oxygen Level" " " = true.
Proof.
  apply (blank_value_is_critical "Blood Oxygen Level" 0).
  simpl. auto.
Defined.

(** X17: a Blood Pressure value whose diastolic part is blank, as in
    "120/", is critical whatever its systolic part: the blank part converts
    to 0, which is below 60. *)
Theorem bloodPressure_blank_diastolic :
  forall (a : string) (n : nat),
    slashFree a = true ->
    isCritical "Blood Pressure" (a ++ String "/" (spaces n)) = true.
Proof.
  intros a n Ha.
  rewrite isCritical_bloodPressure_eq.
  unfold Spec.diastolic. rewrite (cut_at_slash a _ Ha). simpl.
  rewrite (cut_slashFree _ (slashFree_spaces n)). simpl.
  rewrite Number_spaces.
  change (JS.lt (S754_zero false) (JS.lit 60)) with true.
  apply orb_true_r.
Qed.

Lemma bloodPressure_blank_diastolic_witness :
  isCritical "Blood Pressure" "120/" = true.
Proof. apply (bloodPressure_blank_diastolic "120" 0). reflexivity. Defined.

(** X23: spaces before and after a Respiratory Rate, Blood Oxygen Level or
    Heartbeat Rate value change neither its number nor its classification. *)
Theorem padding_does_not_matter :
  forall (ty value : string) (n m : nat),
    In ty ["Respiratory Rate"; "Blood Oxygen Level"; "Heartbeat Rate"] ->
    JS.Number (spaces n ++ value ++ spaces m) = JS.Number value
    /\ isCritical ty (spaces n ++ value ++ spaces m) = isCritical ty value.
Proof.
  intros ty value n m Hty. split; [apply Number_padded_eq | ].
  simpl in Hty. destruct Hty as [<- | [<- | [<- | []]]];
    unfold isCritical; simpl String.eqb; cbv iota zeta;
    rewrite Number_padded_eq; reflexivity.
Qed.

Lemma padding_does_not_matter_witness :
  JS.Number (spaces 2 ++ "72" ++ spaces 1) = JS.Number "72"
  /\ isCritical "Heartbeat Rate" (spaces 2 ++ "72" ++ spaces 1) =
     isCritical "Heartbeat Rate" "72".
Proof.
  apply (padding_does_not_matter "Heartbeat Rate" "72" 2 1).
  simpl. auto.
Defined.

(** ** Lookup after a write *)

Lemma find_app_last {A} (p : A -> bool) (l : list A) (x : A) :
  List.find p l = None -> p x = true -> List.find p (l ++ [x]) = Some x.
Proof.
  induction l as [ | y r IH]; simpl; intros Hl Hx.
  - rewrite Hx. reflexivity.
  - destruct (p y); [discriminate Hl | apply IH; assumption].
Qed.

Lemma patient_fresh (id : ObjectId) (l : list PatientDoc) :
  existsb (Patient.hasId id) l = false <-> List.find (Patient.hasId id) l = None.
Proof.
  induction l as [ | x r IH]; simpl.
  - split; reflexivity.
  - destruct (Patient.hasId id x); simpl.
    + split; discriminate.
    + exact IH.
Qed.

Lemma test_absent (id : ObjectId) (l : list TestDoc) :
  List.find (Test.hasId id) l = None <-> (forall t, In t l -> test_id t <> id).
Proof.
  rewrite find_none_iff. unfold Test.hasId. split; intros H t Ht.
  - specialize (H t Ht). apply N.eqb_neq. exact H.
  - apply N.eqb_neq. apply H. exact Ht.
Qed.

Lemma getTestById_eq (testId : ObjectId) (db : Db) :
  getTestById testId db =
  (db, Normal match List.find (Test.hasId testId) (tests db) with
              | Some t => mkResponse 200 (testJson t)
              | None => testNotFound
              end).
Proof.
  unfold getTestById, tryCatch, bind, Test.findById. simpl.
  destruct (List.find (Test.hasId testId) (tests db)); reflexivity.
Qed.

(** In a list without two elements of the same key, nothing matches the key
    of the first match once that match is removed. *)
Lemma find_removeFirst_unique {A} (key : A -> ObjectId) (id : ObjectId) (l : list A) :
  NoDup (map key l) ->
  List.find (fun x => N.eqb (key x) id) (removeFirst (fun x => N.eqb (key x) id) l) = None.
Proof.
  induction l as [ | x r IH]; simpl; intro H.
  - reflexivity.
  - inversion H as [ | ? ? Hx Hr]; subst.
    destruct (N.eqb_spec (key x) id) as [E | N].
    + apply find_none_iff. intros y Hy. apply N.eqb_neq. intro Ey.
      apply Hx. rewrite E, <- Ey. apply in_map. exact Hy.
    + simpl. destruct (N.eqb_spec (key x) id) as [E | _]; [contradiction | ].
      apply IH. exact Hr.
Qed.

Lemma map_updateFirst {A B} (key : A -> B) (p : A -> bool) (f : A -> A) (l : list A) :
  (forall x, key (f x) = key x) -> map key (updateFirst p f l) = map key l.
Proof.
  intro Hf. induction l as [ | x r IH]; simpl.
  - reflexivity.
  - destruct (p x); simpl; [rewrite Hf | rewrite IH]; reflexivity.
Qed.

Lemma NoDup_removeFirst {A B} (key : A -> B) (p : A -> bool) (l : list A) :
  NoDup (map key l) -> NoDup (map key (removeFirst p l)).
Proof.
  induction l as [ | x r IH]; simpl; intro H.
  - constructor.
  - inversion H as [ | ? ? Hx Hr]; subst.
    destruct (p x); [exact Hr | ].
    simpl. constructor; [ | apply IH; exact Hr].
    intro Hin. apply Hx.
    clear - Hin. induction r as [ | y r IH]; simpl in *.
    + exact Hin.
    + destruct (p y).
      * right. exact Hin.
      * destruct Hin as [E | Hin]; [left; exact E | right; apply IH; exact Hin].
Qed.

Lemma NoDup_append_fresh {A} (key : A -> ObjectId) (l : list A) (x : A) :
  NoDup (map key l) -> (forall y, In y l -> key y <> key x) ->
  NoDup (map key (l ++ [x])).
Proof.
  intros H Hx. rewrite map_app. simpl.
  apply NoDup_app.
  - exact H.
  - constructor; [intros [] | constructor].
  - intros k Hk [<- | []].
    apply in_map_iff in Hk. destruct Hk as (y & Ey & Hy).
    apply (Hx y Hy). exact Ey.
Qed.

(** ** Adding a patient *)

(** X1: add-patient with a name, an age and a gender (name and gender not
    empty) and an unused document id answers 201 with the stored record:
    medicalHistory defaults to the empty list and criticalCondition to false,
    a criticalCondition sent by the client is stored as sent; the record is
    appended to the patient store, the test store is untouched, and
    get-patient-by-id then answers 200 with that record. *)
Theorem addPatient_stores :
  forall (env : Env) (body : Body.patient) (db : Db) (n g : string) (a : JS.number),
    Body.name body = Some n -> Body.age body = Some a -> Body.gender body = Some g ->
    n <> "" -> g <> "" ->
    (forall p, In p (patients db) -> patient_id p <> oid env) ->
    let p := mkPatient (oid env) n a g (Body.address body) (Body.phoneNumber body)
               match Body.medicalHistory body with Some h => h | None => [] end
               match Body.criticalCondition body with Some c => c | None => false end in
    addPatient env body db =
      (mkDb (patients db ++ [p]) (tests db), Normal (mkResponse 201 (patientJson p)))
    /\ getPatientById (oid env) (fst (addPatient env body db)) =
       (fst (addPatient env body db), Normal (mkResponse 200 (patientJson p))).
Proof.
  intros env body db n g a Hn Ha Hg Nn Ng Hfresh p.
  apply nonEmpty_neq in Nn. apply nonEmpty_neq in Ng.
  apply patient_absent in Hfresh.
  assert (addPatient env body db =
          (mkDb (patients db ++ [p]) (tests db), Normal (mkResponse 201 (patientJson p))))
    as Hadd.
  { unfold addPatient, tryCatch, bind, Patient.save.
    rewrite Hn, Ha, Hg, Nn, Ng. simpl.
    rewrite (proj2 (patient_fresh _ _) Hfresh). reflexivity. }
  split; [exact Hadd | ].
  rewrite Hadd. cbn [fst]. rewrite getPatientById_eq. cbn [patients].
  rewrite (find_app_last _ _ p Hfresh).
  - reflexivity.
  - unfold Patient.hasId. simpl. apply N.eqb_refl.
Qed.

Lemma addPatient_stores_witness :
  let p := mkPatient 7%N "Ann" (JS.lit 40) "female" None None [] false in
  addPatient (mkEnv 5000 7%N) Ward.ann Ward.db1 =
    (mkDb (patients Ward.db1 ++ [p]) (tests Ward.db1),
     Normal (mkResponse 201 (patientJson p)))
  /\ getPatientById 7%N (fst (addPatient (mkEnv 5000 7%N) Ward.ann Ward.db1)) =
     (fst (addPatient (mkEnv 5000 7%N) Ward.ann Ward.db1),
      Normal (mkResponse 200 (patientJson p))).
Proof.
  apply (addPatient_stores (mkEnv 5000 7%N) Ward.ann Ward.db1 "Ann" "female" (JS.lit 40)).
  - reflexivity.
  - reflexivity.
  - reflexivity.
  - discriminate.
  - discriminate.
  - intros p [<- | []]. simpl. discriminate.
Defined.

(** X2: add-patient without a name, an age or a gender, or with an empty
    name or gender, answers 400 and writes nothing. *)
Theorem addPatient_rejects :
  forall (env : Env) (body : Body.patient) (db : Db),
    (Body.name body = None \/ Body.name body = Some ""
     \/ Body.age body = None
     \/ Body.gender body = None \/ Body.gender body = Some "") ->
    addPatient env body db = (db, Normal (mkResponse 400 (errorJson ValidationError))).
Proof.
  intros env body db H.
  unfold addPatient, tryCatch, bind, Patient.save.
  destruct (Body.name body) as [n | ], (Body.age body) as [a | ],
    (Body.gender body) as [g | ]; try reflexivity.
  - destruct H as [H | [H | [H | [H | H]]]]; try discriminate H.
    + injection H as ->. reflexivity.
    + injection H as ->. simpl. rewrite andb_false_r. reflexivity.
Qed.

Lemma addPatient_rejects_witness :
  addPatient (mkEnv 5000 7%N)
    (Body.mkPatient (Some "Bob") None (Some "male") None None None None) Ward.db1 =
  (Ward.db1, Normal (mkResponse 400 (errorJson ValidationError))).
Proof.
  apply (addPatient_rejects (mkEnv 5000 7%N)
           (Body.mkPatient (Some "Bob") None (Some "male") None None None None) Ward.db1).
  right; right; left. reflexivity.
Defined.

(** ** Updating and deleting a patient *)

(** X8: update-patient on a stored id with a payload that passes the
    validators answers 200 with the merged record: the members of the payload
    replace the stored ones (a criticalCondition sent by the client
    overwrites the derived flag), the others and the id are kept; the test
    store is untouched and get-patient-by-id then answers the merged
    record. *)
Theorem updatePatient_merges :
  forall (id : ObjectId) (body : Body.patient) (db : Db) (p : PatientDoc),
    List.find (Patient.hasId id) (patients db) = Some p ->
    Patient.validateUpdate body = true ->
    updatePatient id body db =
      (mkDb (updateFirst (Patient.hasId id) (Patient.merge body) (patients db)) (tests db),
       Normal (mkResponse 200 (patientJson (Patient.merge body p))))
    /\ patient_id (Patient.merge body p) = id
    /\ (forall c, Body.criticalCondition body = Some c ->
          criticalCondition (Patient.merge body p) = c)
    /\ (Body.criticalCondition body = None ->
          criticalCondition (Patient.merge body p) = criticalCondition p)
    /\ getPatientById id (fst (updatePatient id body db)) =
       (fst (updatePatient id body db),
        Normal (mkResponse 200 (patientJson (Patient.merge body p)))).
Proof.
  intros id body db p Hp Hv.
  assert (updatePatient id body db =
          (mkDb (updateFirst (Patient.hasId id) (Patient.merge body) (patients db)) (tests db),
           Normal (mkResponse 200 (patientJson (Patient.merge body p))))) as Hup.
  { unfold updatePatient, tryCatch, bind, Patient.findByIdAndUpdate.
    rewrite Hv, Hp. reflexivity. }
  split; [exact Hup | ]. split; [ | split; [ | split]].
  - destruct (find_split _ _ _ Hp) as (_ & _ & _ & Hx & _).
    apply N.eqb_eq. exact Hx.
  - intros c Hc. unfold Patient.merge. simpl. rewrite Hc. reflexivity.
  - intro Hc. unfold Patient.merge. simpl. rewrite Hc. reflexivity.
  - rewrite Hup. cbn [fst]. rewrite getPatientById_eq. cbn [patients].
    rewrite find_updateFirst by (intro x; reflexivity).
    rewrite Hp. reflexivity.
Qed.

Lemma updatePatient_merges_witness :
  criticalCondition
    (Patient.merge (setCritical true) Ward.annDoc) = true
  /\ getPatientById 1%N (fst (updatePatient 1%N (setCritical true) Ward.db1)) =
     (fst (updatePatient 1%N (setCritical true) Ward.db1),
      Normal (mkResponse 200 (patientJson (Patient.merge (setCritical true) Ward.annDoc)))).
Proof.
  destruct (updatePatient_merges 1%N (setCritical true) Ward.db1 Ward.annDoc)
    as (_ & _ & H3 & _ & H5).
  - reflexivity.
  - reflexivity.
  - split; [apply H3; reflexivity | exact H5].
Defined.

(** X9: once delete-patient has removed a stored patient (ids being
    unique), get-patient-by-id and the patient's history answer 404, while
    list-tests-for-patient still answers 200 with the same records as
    before. *)
Theorem deletePatient_then_lookup :
  forall (id : ObjectId) (db : Db) (p : PatientDoc),
    NoDup (map patient_id (patients db)) ->
    List.find (Patient.hasId id) (patients db) = Some p ->
    let db' := fst (deletePatient id db) in
    snd (deletePatient id db) =
      Normal (mkResponse 200 (messageJson "Patient deleted successfully"))
    /\ getPatientById id db' = (db', Normal notFound)
    /\ getPatientHistory id db' = (db', Normal notFound)
    /\ snd (getTestsForPatient id db') = snd (getTestsForPatient id db).
Proof.
  intros id db p Hnd Hp db'.
  assert (deletePatient id db =
          (mkDb (removeFirst (Patient.hasId id) (patients db)) (tests db),
           Normal (mkResponse 200 (messageJson "Patient deleted successfully")))) as Hdel.
  { unfold deletePatient, tryCatch, bind, Patient.findByIdAndDelete.
    rewrite Hp. reflexivity. }
  assert (List.find (Patient.hasId id) (patients db') = None) as Hgone.
  { subst db'. rewrite Hdel. cbn [fst patients].
    apply (find_removeFirst_unique patient_id id _ Hnd). }
  split; [rewrite Hdel; reflexivity | ]. split; [ | split].
  - rewrite getPatientById_eq, Hgone. reflexivity.
  - unfold getPatientHistory, tryCatch, bind, Patient.findById.
    rewrite Hgone. reflexivity.
  - rewrite !getTestsForPatient_eq. subst db'. rewrite Hdel. reflexivity.
Qed.

Lemma deletePatient_then_lookup_witness :
  let db' := fst (deletePatient 1%N Ward.db1) in
  snd (deletePatient 1%N Ward.db1) =
    Normal (mkResponse 200 (messageJson "Patient deleted successfully"))
  /\ getPatientById 1%N db' = (db', Normal notFound)
  /\ getPatientHistory 1%N db' = (db', Normal notFound)
  /\ snd (getTestsForPatient 1%N db') = snd (getTestsForPatient 1%N Ward.db1).
Proof.
  apply (deletePatient_then_lookup 1%N Ward.db1 Ward.annDoc).
  - simpl. constructor; [intros [] | constructor].
  - reflexivity.
Defined.

(** ** Tests by id *)

(** X4: after add-test has stored a test, get-test-by-id under the new
    document id answers 200 with that test. *)
Theorem addTest_then_getTestById :
  forall (env : Env) (id : ObjectId) (body : Body.test) (db : Db) (ty v : string),
    Body.type body = Some ty -> In ty testTypes ->
    Body.value body = Some v -> v <> "" ->
    (forall t, In t (tests db) -> test_id t <> oid env) ->
    getTestById (oid env) (fst (addTestForPatient env id body db)) =
    (fst (addTestForPatient env id body db),
     Normal (mkResponse 200 (testJson (mkTest (oid env) id (now env) ty v)))).
Proof.
  intros env id body db ty v Hty Henum Hv Hne Hfresh.
  rewrite (addTestForPatient_valid env id body db ty v Hty Hv Henum Hne Hfresh).
  cbn [fst]. rewrite getTestById_eq, recomputed_tests. cbn [inserted tests].
  rewrite (find_app_last _ _ (newTest env id ty v) (proj2 (test_absent _ _) Hfresh)).
  - reflexivity.
  - unfold Test.hasId. simpl. apply N.eqb_refl.
Qed.

Lemma addTest_then_getTestById_witness :
  getTestById 3%N
    (fst (addTestForPatient (mkEnv 3000 3%N) 1%N (bloodPressure "200/70") Ward.db1)) =
  (fst (addTestForPatient (mkEnv 3000 3%N) 1%N (bloodPressure "200/70") Ward.db1),
   Normal (mkResponse 200 (testJson (mkTest 3%N 1%N 3000 "Blood Pressure" "200/70")))).
Proof.
  apply (addTest_then_getTestById (mkEnv 3000 3%N) 1%N (bloodPressure "200/70")
           Ward.db1 "Blood Pressure" "200/70").
  - reflexivity.
  - simpl; auto.
  - reflexivity.
  - discriminate.
  - intros t [<- | []]. simpl. discriminate.
Defined.

(** X12: add-test does not look the patient up: for an id under which no
    patient is stored a valid request is still answered 201, the test is
    stored with that id as its owner and the patient store is unchanged. *)
Theorem addTest_for_absent_patient :
  forall (env : Env) (id : ObjectId) (body : Body.test) (db : Db) (ty v : string),
    (forall p, In p (patients db) -> patient_id p <> id) ->
    Body.type body = Some ty -> In ty testTypes ->
    Body.value body = Some v -> v <> "" ->
    (forall t, In t (tests db) -> test_id t <> oid env) ->
    addTestForPatient env id body db =
    (mkDb (patients db) (tests db ++ [mkTest (oid env) id (now env) ty v]),
     Normal (mkResponse 201 (testJson (mkTest (oid env) id (now env) ty v)))).
Proof.
  intros env id body db ty v Habs Hty Henum Hv Hne Hfresh.
  rewrite (addTestForPatient_valid env id body db ty v Hty Hv Henum Hne Hfresh).
  apply patient_absent in Habs.
  unfold recomputed.
  destruct (latestTest id (inserted (newTest env id ty v) db)); [ | reflexivity].
  cbn [inserted patients tests].
  rewrite (updateFirst_absent _ _ _ Habs). reflexivity.
Qed.

Lemma addTest_for_absent_patient_witness :
  addTestForPatient (mkEnv 3000 3%N) 9%N (bloodPressure "200/70") Ward.db1 =
  (mkDb (patients Ward.db1)
        (tests Ward.db1 ++ [mkTest 3%N 9%N 3000 "Blood Pressure" "200/70"]),
   Normal (mkResponse 201 (testJson (mkTest 3%N 9%N 3000 "Blood Pressure" "200/70")))).
Proof.
  apply (addTest_for_absent_patient (mkEnv 3000 3%N) 9%N (bloodPressure "200/70")
           Ward.db1 "Blood Pressure" "200/70").
  - intros p [<- | []]. simpl. discriminate.
  - reflexivity.
  - simpl; auto.
  - reflexivity.
  - discriminate.
  - intros t [<- | []]. simpl. discriminate.
Defined.

(** X5: update-test on a stored test id with a payload that passes the
    validators answers 200 with the merged test: the members of the payload
    replace the stored ones (the owner and the date included), the others
    and the id are kept; get-test-by-id then answers the merged test. *)
Theorem updateTest_merges :
  forall (testId : ObjectId) (body : Body.test) (db : Db) (t : TestDoc),
    List.find (Test.hasId testId) (tests db) = Some t ->
    Test.validateUpdate body = true ->
    let t' := mkTest (test_id t)
                match Body.patientId body with Some x => x | None => patientId t end
                match Body.date body with Some x => x | None => date t end
                match Body.type body with Some x => x | None => type t end
                match Body.value body with Some x => x | None => value t end in
    updateTest testId body db =
      (mkDb (patients db) (updateFirst (Test.hasId testId) (Test.merge body) (tests db)),
       Normal (mkResponse 200 (testJson t')))
    /\ test_id t' = testId
    /\ getTestById testId (fst (updateTest testId body db)) =
       (fst (updateTest testId body db), Normal (mkResponse 200 (testJson t'))).
Proof.
  intros testId body db t Ht Hv t'.
  assert (updateTest testId body db =
          (mkDb (patients db) (updateFirst (Test.hasId testId) (Test.merge body) (tests db)),
           Normal (mkResponse 200 (testJson t')))) as Hup.
  { unfold updateTest, tryCatch, bind, Test.findByIdAndUpdate.
    rewrite Hv, Ht. reflexivity. }
  split; [exact Hup | ]. split.
  - destruct (find_split _ _ _ Ht) as (_ & _ & _ & Hx & _).
    apply N.eqb_eq. exact Hx.
  - rewrite Hup. cbn [fst]. rewrite getTestById_eq. cbn [tests].
    rewrite find_updateFirst by (intro x; reflexivity).
    rewrite Ht. reflexivity.
Qed.

Lemma updateTest_merges_witness :
  updateTest 2%N (Body.mkTest None None None (Some "130")) Ward.db1 =
    (mkDb (patients Ward.db1)
       (updateFirst (Test.hasId 2%N)
          (Test.merge (Body.mkTest None None None (Some "130"))) (tests Ward.db1)),
     Normal (mkResponse 200 (testJson (mkTest 2%N 1%N 2000 "Heartbeat Rate" "130"))))
  /\ test_id (mkTest 2%N 1%N 2000 "Heartbeat Rate" "130") = 2%N
  /\ getTestById 2%N
       (fst (updateTest 2%N (Body.mkTest None None None (Some "130")) Ward.db1)) =
     (fst (updateTest 2%N (Body.mkTest None None None (Some "130")) Ward.db1),
      Normal (mkResponse 200 (testJson (mkTest 2%N 1%N 2000 "Heartbeat Rate" "130")))).
Proof.
  apply (updateTest_merges 2%N (Body.mkTest None None None (Some "130")) Ward.db1
           Ward.test2); reflexivity.
Defined.

(** X6: update-test with a type outside the enumeration or with an empty
    value answers 400 and writes nothing, whether or not the test id is
    stored; with a payload that passes the validators and a test id that is
    not stored it answers 404 and writes nothing. *)
Theorem updateTest_rejects :
  forall (testId : ObjectId) (body : Body.test) (db : Db),
    ((exists ty, Body.type body = Some ty /\ ~ In ty testTypes)
     \/ Body.value body = Some "" ->
     updateTest testId body db =
     (db, Normal (mkResponse 400 (errorJson ValidationError))))
    /\ (Test.validateUpdate body = true ->
        (forall t, In t (tests db) -> test_id t <> testId) ->
        updateTest testId body db = (db, Normal testNotFound)).
Proof.
  intros testId body db. split.
  - intro H.
    assert (Test.validateUpdate body = false) as Hv.
    { unfold Test.validateUpdate. destruct H as [(ty & Hty & Hn) | Hval].
      - rewrite Hty. destruct (Test.inEnum ty) eqn:E; [ | reflexivity].
        apply inEnum_In in E. contradiction.
      - rewrite Hval. apply andb_false_r. }
    unfold updateTest, tryCatch, bind, Test.findByIdAndUpdate.
    rewrite Hv. reflexivity.
  - intros Hv Habs. apply test_absent in Habs.
    unfold updateTest, tryCatch, bind, Test.findByIdAndUpdate.
    rewrite Hv, Habs. reflexivity.
Qed.

Lemma updateTest_rejects_witness :
  updateTest 2%N (Body.mkTest None None (Some "Heart Rate") None) Ward.db1 =
    (Ward.db1, Normal (mkResponse 400 (errorJson ValidationError)))
  /\ updateTest 9%N (Body.mkTest None None None (Some "130")) Ward.db1 =
     (Ward.db1, Normal testNotFound).
Proof.
  split.
  - apply (proj1 (updateTest_rejects 2%N
                    (Body.mkTest None None (Some "Heart Rate") None) Ward.db1)).
    left. exists "Heart Rate". split; [reflexivity | ].
    simpl. intros [H | [H | [H | [H | []]]]]; discriminate H.
  - apply (proj2 (updateTest_rejects 9%N
                    (Body.mkTest None None None (Some "130")) Ward.db1)).
    + reflexivity.
    + intros t [<- | []]. simpl. discriminate.
Defined.

(** X7: delete-test on a stored test id (ids being unique) answers 200 and
    get-test-by-id then answers 404; on a test id that is not stored it
    answers 404 and writes nothing. *)
Theorem deleteTest_then_lookup :
  forall (testId : ObjectId) (db : Db),
    (forall t, NoDup (map test_id (tests db)) ->
       List.find (Test.hasId testId) (tests db) = Some t ->
       snd (deleteTest testId db) =
         Normal (mkResponse 200 (messageJson "Test deleted successfully"))
       /\ getTestById testId (fst (deleteTest testId db)) =
          (fst (deleteTest testId db), Normal testNotFound))
    /\ ((forall t, In t (tests db) -> test_id t <> testId) ->
        deleteTest testId db = (db, Normal testNotFound)).
Proof.
  intros testId db. split.
  - intros t Hnd Ht.
    assert (snd (deleteTest testId db) =
            Normal (mkResponse 200 (messageJson "Test deleted successfully"))) as Hs.
    { unfold deleteTest, tryCatch, bind, Test.findByIdAndDelete.
      rewrite Ht. reflexivity. }
    split; [exact Hs | ].
    rewrite getTestById_eq, deleteTest_db. cbn [tests]. unfold Test.hasId.
    rewrite (find_removeFirst_unique test_id testId _ Hnd). reflexivity.
  - intro Habs. apply test_absent in Habs.
    unfold deleteTest, tryCatch, bind, Test.findByIdAndDelete.
    rewrite Habs. reflexivity.
Qed.

Lemma deleteTest_then_lookup_witness :
  (snd (deleteTest 2%N Ward.db1) =
     Normal (mkResponse 200 (messageJson "Test deleted successfully"))
   /\ getTestById 2%N (fst (deleteTest 2%N Ward.db1)) =
      (fst (deleteTest 2%N Ward.db1), Normal testNotFound))
  /\ deleteTest 9%N Ward.db1 = (Ward.db1, Normal testNotFound).
Proof.
  split.
  - apply (proj1 (deleteTest_then_lookup 2%N Ward.db1) Ward.test2).
    + simpl. constructor; [intros [] | constructor].
    + reflexivity.
  - apply (proj2 (deleteTest_then_lookup 9%N Ward.db1)).
    intros t [<- | []]. simpl. discriminate.
Defined.

(** ** History and the critical list *)

(** X3: the history of a stored patient answers 200 with the patient's
    record and exactly the patient's tests, newest first; they are the tests
    that list-tests-for-patient returns, before projection.  Under an id that
    is not stored the answer is 404.  Nothing is written. *)
Theorem getPatientHistory_answers :
  forall (id : ObjectId) (db : Db),
    ((forall p, In p (patients db) -> patient_id p <> id) ->
     getPatientHistory id db = (db, Normal notFound))
    /\ (forall p, List.find (Patient.hasId id) (patients db) = Some p ->
        exists sorted : list TestDoc,
          getPatientHistory id db =
            (db, Normal (mkResponse 200 (historyJson p sorted)))
          /\ Permutation sorted (List.filter (fun t => N.eqb (patientId t) id) (tests db))
          /\ StronglySorted newerFirst sorted
          /\ snd (getTestsForPatient id db) =
             Normal (mkResponse 200 (objectsJson (map testView sorted)))).
Proof.
  intros id db. split.
  - intro Habs. apply patient_absent in Habs.
    unfold getPatientHistory, tryCatch, bind, Patient.findById.
    rewrite Habs. reflexivity.
  - intros p Hp.
    exists (sortByDateDesc (List.filter (Test.ofPatient id) (tests db))).
    split; [ | split; [ | split]].
    + unfold getPatientHistory, tryCatch, bind, Patient.findById.
      rewrite Hp. reflexivity.
    + apply sortByDateDesc_perm.
    + apply sortByDateDesc_sorted.
    + rewrite getTestsForPatient_eq. reflexivity.
Qed.

Lemma getPatientHistory_answers_witness :
  getPatientHistory 9%N Ward.db1 = (Ward.db1, Normal notFound)
  /\ exists sorted : list TestDoc,
       getPatientHistory 1%N Ward.db1 =
         (Ward.db1, Normal (mkResponse 200 (historyJson Ward.annDoc sorted)))
       /\ Permutation sorted
            (List.filter (fun t => N.eqb (patientId t) 1%N) (tests Ward.db1))
       /\ StronglySorted newerFirst sorted
       /\ snd (getTestsForPatient 1%N Ward.db1) =
          Normal (mkResponse 200 (objectsJson (map testView sorted))).
Proof.
  split.
  - apply (proj1 (getPatientHistory_answers 9%N Ward.db1)).
    intros p [<- | []]. simpl. discriminate.
  - apply (proj2 (getPatientHistory_answers 1%N Ward.db1) Ward.annDoc).
    reflexivity.
Defined.

Lemma In_updateFirst_unique (id : ObjectId) (f : PatientDoc -> PatientDoc)
    (l : list PatientDoc) (p q : PatientDoc) :
  (forall x, patient_id (f x) = patient_id x) ->
  NoDup (map patient_id l) ->
  List.find (Patient.hasId id) l = Some p ->
  In q (updateFirst (Patient.hasId id) f l) -> patient_id q = id -> q = f p.
Proof.
  intros Hf Hnd Hp Hq Hid.
  destruct (find_split _ _ _ Hp) as (l1 & l2 & -> & Hx & Hl1).
  rewrite (updateFirst_split _ f l1 l2 p Hx Hl1) in Hq.
  apply N.eqb_eq in Hx.
  rewrite map_app in Hnd. simpl in Hnd.
  apply in_app_or in Hq. destruct Hq as [Hq | [<- | Hq]].
  - specialize (Hl1 q Hq). apply N.eqb_neq in Hl1. contradiction.
  - reflexivity.
  - exfalso. apply NoDup_remove_2 in Hnd. apply Hnd.
    apply in_or_app. right. rewrite Hx, <- Hid. apply in_map. exact Hq.
Qed.

(** X20: after add-test has stored a test that is newer than the other
    tests of a stored patient (patient ids being unique), the list of critical
    patients holds a record of that patient exactly when the new value is
    classified critical, and that record is the patient's with the flag
    set. *)
Theorem critical_list_after_addTest :
  forall (env : Env) (id : ObjectId) (db : Db) (ty v : string) (p q : PatientDoc),
    NoDup (map patient_id (patients db)) ->
    List.find (Patient.hasId id) (patients db) = Some p ->
    In ty testTypes -> v <> "" ->
    (forall t, In t (tests db) -> test_id t <> oid env) ->
    (forall u, In u (tests db) -> patientId u = id -> date u < now env) ->
    patient_id q = id ->
    let db' := fst (addTestForPatient env id (Body.mkTest None None (Some ty) (Some v)) db) in
    getCriticalPatients db' =
      (db', Normal (mkResponse 200
                      (patientsJson (List.filter criticalCondition (patients db')))))
    /\ (In q (List.filter criticalCondition (patients db')) <->
        isCritical ty v = true /\ q = withCritical true p).
Proof.
  intros env id db ty v p q Hnd Hp Henum Hne Hfresh Hnew Hq db'.
  split; [reflexivity | ].
  assert (patients db' =
          updateFirst (Patient.hasId id) (withCritical (isCritical ty v)) (patients db))
    as Hpat.
  { subst db'.
    rewrite (addTestForPatient_valid env id (Body.mkTest None None (Some ty) (Some v))
               db ty v eq_refl eq_refl Henum Hne Hfresh).
    cbn [fst]. unfold recomputed.
    rewrite (latestTest_inserted env id ty v db Hnew). reflexivity. }
  rewrite Hpat, filter_In. split.
  - intros [Hin Hc].
    pose proof (In_updateFirst_unique id (withCritical (isCritical ty v)) _ p q
                  (fun x => eq_refl) Hnd Hp Hin Hq) as E.
    subst q. simpl in Hc. rewrite Hc. split; reflexivity.
  - intros [Hc ->]. split; [ | reflexivity].
    destruct (find_split _ _ _ Hp) as (l1 & l2 & -> & Hx & Hl1).
    rewrite (updateFirst_split _ _ l1 l2 p Hx Hl1), Hc.
    apply in_or_app. right. left. reflexivity.
Qed.

Lemma critical_list_after_addTest_witness :
  let db' := fst (addTestForPatient (mkEnv 3000 3%N) 1%N
                    (Body.mkTest None None (Some "Blood Pressure") (Some "200/70"))
                    Ward.db1) in
  getCriticalPatients db' =
    (db', Normal (mkResponse 200
                    (patientsJson (List.filter criticalCondition (patients db')))))
  /\ (In (withCritical true Ward.annDoc) (List.filter criticalCondition (patients db')) <->
      isCritical "Blood Pressure" "200/70" = true
      /\ withCritical true Ward.annDoc = withCritical true Ward.annDoc).
Proof.
  apply (critical_list_after_addTest (mkEnv 3000 3%N) 1%N Ward.db1
           "Blood Pressure" "200/70" Ward.annDoc (withCritical true Ward.annDoc)).
  - simpl. constructor; [intros [] | constructor].
  - reflexivity.
  - simpl; auto.
  - discriminate.
  - intros t [<- | []]. simpl. discriminate.
  - intros u [<- | []] _. simpl. lia.
  - reflexivity.
Defined.

(** ** Recomputation at its edges *)

Lemma latestTest_none (id : ObjectId) (db : Db) :
  (forall t, In t (tests db) -> patientId t <> id) -> latestTest id db = None.
Proof.
  intro H. unfold latestTest.
  assert (List.filter (Test.ofPatient id) (tests db) = []) as ->.
  { induction (tests db) as [ | t r IH]; simpl.
    - reflexivity.
    - unfold Test.ofPatient at 1.
      destruct (N.eqb_spec (patientId t) id) as [E | _].
      + destruct (H t (or_introl eq_refl) E).
      + apply IH. intros u Hu. apply H. right. exact Hu. }
  reflexivity.
Qed.

(** X21: the recomputation writes nothing when the patient has no test in
    the store (so a flag survives the deletion of every test), and nothing
    when no patient is stored under the id. *)
Theorem recomputation_without_test_or_patient :
  forall (id : ObjectId) (db : Db),
    ((forall t, In t (tests db) -> patientId t <> id) ->
     updatePatientCriticalCondition id db = (db, Normal tt))
    /\ ((forall p, In p (patients db) -> patient_id p <> id) ->
        updatePatientCriticalCondition id db = (db, Normal tt)).
Proof.
  intros id db. rewrite updatePatientCriticalCondition_eq. split.
  - intro H. unfold recomputed. rewrite (latestTest_none id db H). reflexivity.
  - intro H. apply patient_absent in H. unfold recomputed.
    destruct (latestTest id db); [ | reflexivity].
    rewrite (updateFirst_absent _ _ _ H). destruct db; reflexivity.
Qed.

Lemma recomputation_without_test_or_patient_witness :
  updatePatientCriticalCondition 1%N (fst (deleteTest 2%N Ward.db1)) =
    (fst (deleteTest 2%N Ward.db1), Normal tt)
  /\ updatePatientCriticalCondition 9%N Ward.db1 = (Ward.db1, Normal tt).
Proof.
  split.
  - apply (proj1 (recomputation_without_test_or_patient 1%N
                    (fst (deleteTest 2%N Ward.db1)))).
    intros t [].
  - apply (proj2 (recomputation_without_test_or_patient 9%N Ward.db1)).
    intros p [<- | []]. simpl. discriminate.
Defined.

Lemma updateFirst_twice {A} (p : A -> bool) (f : A -> A) (l : list A) :
  (forall x, p (f x) = p x) -> (forall x, f (f x) = f x) ->
  updateFirst p f (updateFirst p f l) = updateFirst p f l.
Proof.
  intros Hp Hf. induction l as [ | x r IH]; simpl.
  - reflexivity.
  - destruct (p x) eqn:E; simpl.
    + rewrite Hp, E, Hf. reflexivity.
    + rewrite E, IH. reflexivity.
Qed.

Lemma recomputed_frame (id : ObjectId) (db : Db) :
  map (withCritical false) (patients (recomputed id db)) =
  map (withCritical false) (patients db)
  /\ List.filter (fun p => negb (Patient.hasId id p)) (patients (recomputed id db)) =
     List.filter (fun p => negb (Patient.hasId id p)) (patients db).
Proof.
  unfold recomputed. destruct (latestTest id db) as [t | ]; [ | split; reflexivity].
  cbn [patients]. split.
  - generalize (isCritical (type t) (value t)). intro b.
    induction (patients db) as [ | x r IH]; simpl.
    + reflexivity.
    + destruct (Patient.hasId id x); simpl; [reflexivity | rewrite IH; reflexivity].
  - apply filter_updateFirst; intros x Hx.
    + rewrite Hx. reflexivity.
    + rewrite hasId_withCritical, Hx. reflexivity.
Qed.

(** X22: recomputing twice is recomputing once, and the recomputation for
    one patient never touches the test store, the records of other patients,
    or any member of a record but the flag. *)
Theorem recomputation_idempotent_and_framed :
  forall (id : ObjectId) (db : Db),
    let db' := fst (updatePatientCriticalCondition id db) in
    fst (updatePatientCriticalCondition id db') = db'
    /\ tests db' = tests db
    /\ map (withCritical false) (patients db') = map (withCritical false) (patients db)
    /\ List.filter (fun p => negb (Patient.hasId id p)) (patients db') =
       List.filter (fun p => negb (Patient.hasId id p)) (patients db).
Proof.
  intros id db db'. subst db'.
  rewrite !updatePatientCriticalCondition_eq. cbn [fst].
  split; [ | split; [apply recomputed_tests | ]].
  - unfold recomputed at 1. rewrite latestTest_recomputed.
    unfold recomputed.
    destruct (latestTest id db) as [t | ] eqn:E; [ | reflexivity].
    cbn [patients tests].
    rewrite updateFirst_twice; try reflexivity.
  - apply recomputed_frame.
Qed.

(** X11: add-test, answered 201 or 400, leaves the patient store as it was
    but for the flag of the patient under the path id: no record is added or
    removed, no other member changes and no other patient changes. *)
Theorem addTest_changes_only_the_flag :
  forall (env : Env) (id : ObjectId) (body : Body.test) (db : Db),
    map (withCritical false) (patients (fst (addTestForPatient env id body db))) =
    map (withCritical false) (patients db)
    /\ List.filter (fun p => negb (Patient.hasId id p))
         (patients (fst (addTestForPatient env id body db))) =
       List.filter (fun p => negb (Patient.hasId id p)) (patients db).
Proof.
  intros env id body db.
  destruct (addTestForPatient_db env id body db) as [-> | (ty & v & _ & ->)].
  - split; reflexivity.
  - exact (recomputed_frame id (inserted (newTest env id ty v) db)).
Qed.

(** ** The route table as a whole *)

Lemma recomputed_ids (id : ObjectId) (db : Db) :
  map patient_id (patients (recomputed id db)) = map patient_id (patients db).
Proof.
  unfold recomputed. destruct (latestTest id db); [ | reflexivity].
  cbn [patients]. apply map_updateFirst. intro x. reflexivity.
Qed.

Lemma updatePatient_db (id : ObjectId) (body : Body.patient) (db : Db) :
  fst (updatePatient id body db) = db \/
  fst (updatePatient id body db) =
    mkDb (updateFirst (Patient.hasId id) (Patient.merge body) (patients db)) (tests db).
Proof.
  unfold updatePatient, tryCatch, bind, Patient.findByIdAndUpdate. simpl.
  destruct (Patient.validateUpdate body); simpl.
  - destruct (List.find (Patient.hasId id) (patients db)); simpl; auto.
  - auto.
Qed.

Lemma deletePatient_db (id : ObjectId) (db : Db) :
  fst (deletePatient id db) =
  mkDb (removeFirst (Patient.hasId id) (patients db)) (tests db).
Proof.
  unfold deletePatient, tryCatch, bind, Patient.findByIdAndDelete. simpl.
  destruct (List.find (Patient.hasId id) (patients db)) eqn:E; simpl.
  - reflexivity.
  - rewrite (removeFirst_absent _ _ E). destruct db; reflexivity.
Qed.

Lemma addPatient_db (env : Env) (body : Body.patient) (db : Db) :
  fst (addPatient env body db) = db \/
  exists p, patient_id p = oid env
            /\ (forall q, In q (patients db) -> patient_id q <> oid env)
            /\ fst (addPatient env body db) = mkDb (patients db ++ [p]) (tests db).
Proof.
  unfold addPatient, tryCatch, bind, Patient.save.
  destruct (Body.name body) as [n | ], (Body.age body) as [a | ],
    (Body.gender body) as [g | ]; try (left; reflexivity).
  destruct (nonEmpty n && nonEmpty g); [ | left; reflexivity].
  destruct (existsb (Patient.hasId (oid env)) (patients db)) eqn:E;
    [left; reflexivity | ].
  right. eexists. split; [ | split; [ | reflexivity]].
  - reflexivity.
  - apply patient_absent. apply patient_fresh. exact E.
Qed.

(** What add-test does, case by case: a validation failure, a document id
    already in use, or a stored test. *)
Lemma addTestForPatient_cases (env : Env) (id : ObjectId) (body : Body.test) (db : Db) :
  addTestForPatient env id body db =
    (db, Normal (mkResponse 400 (errorJson ValidationError)))
  \/ addTestForPatient env id body db =
     (db, Normal (mkResponse 400 (errorJson DuplicateKeyError)))
  \/ exists ty v,
       (forall t, In t (tests db) -> test_id t <> oid env)
       /\ addTestForPatient env id body db =
          (recomputed id (inserted (newTest env id ty v) db),
           Normal (mkResponse 201 (testJson (newTest env id ty v)))).
Proof.
  destruct (Body.type body) as [ty | ] eqn:Hty;
    [ | left; apply addTestForPatient_invalid; rewrite Hty; exact I].
  destruct (Body.value body) as [v | ] eqn:Hv;
    [ | left; apply addTestForPatient_invalid; rewrite Hty, Hv; exact I].
  destruct (Test.inEnum ty && nonEmpty v) eqn:Hok;
    [ | left; apply addTestForPatient_invalid; rewrite Hty, Hv; exact Hok].
  apply andb_true_iff in Hok. destruct Hok as [Henum Hne].
  destruct (existsb (Test.hasId (oid env)) (tests db)) eqn:Hdup.
  - right; left. unfold addTestForPatient, tryCatch, bind, Test.save.
    cbn [Body.patientId Body.type Body.value].
    rewrite Hty, Hv, Henum, Hne, Hdup. reflexivity.
  - right; right. exists ty, v.
    pose proof (proj1 (test_fresh _ _) Hdup) as Hfresh. split; [exact Hfresh | ].
    apply addTestForPatient_valid; trivial.
    + apply inEnum_In. exact Henum.
    + apply nonEmpty_neq. exact Hne.
Qed.

(** X10: every request of the route table keeps the ids of the stored
    patients distinct and the ids of the stored tests distinct; so they are
    distinct in every database that a sequence of requests reaches from the
    empty one. *)
Theorem router_keeps_ids_unique :
  (forall (env : Env) (req : Request) (db : Db),
     uniqueIds db -> uniqueIds (fst (router env req db)))
  /\ (forall reqs : list (Env * Request), uniqueIds (serve reqs emptyDb)).
Proof.
  assert (forall env req db, uniqueIds db -> uniqueIds (fst (router env req db)))
    as Hstep.
  { intros env req db [Hp Ht]. unfold uniqueIds. destruct req; cbn [router].
    - destruct (addPatient_db env body db) as [-> | (p & Hid & Hfresh & ->)];
        [split; assumption | ].
      cbn [patients tests]. split; [ | exact Ht].
      apply NoDup_append_fresh; [exact Hp | ].
      intros q Hq. rewrite Hid. apply Hfresh. exact Hq.
    - split; assumption.
    - split; assumption.
    - rewrite getPatientById_eq. split; assumption.
    - destruct (updatePatient_db id body db) as [-> | ->]; [split; assumption | ].
      cbn [patients tests]. split; [ | exact Ht].
      rewrite map_updateFirst by (intro x; reflexivity). exact Hp.
    - rewrite deletePatient_db. cbn [patients tests]. split; [ | exact Ht].
      apply NoDup_removeFirst. exact Hp.
    - destruct (addTestForPatient_cases env id body db)
        as [-> | [-> | (ty & v & Hfresh & ->)]]; try (split; assumption).
      cbn [fst]. rewrite recomputed_ids, recomputed_tests.
      cbn [inserted patients tests]. split; [exact Hp | ].
      apply NoDup_append_fresh; [exact Ht | exact Hfresh].
    - rewrite getTestsForPatient_eq. split; assumption.
    - destruct (updateTest_db testId body db) as [-> | ->]; [split; assumption | ].
      cbn [patients tests]. split; [exact Hp | ].
      rewrite map_updateFirst by (intro x; reflexivity). exact Ht.
    - destruct (updateTestOperators_db testId body db) as [-> | ->];
        [split; assumption | ].
      cbn [patients tests]. split; [exact Hp | ].
      rewrite map_updateFirst by (intro x; reflexivity). exact Ht.
    - rewrite deleteTest_db. cbn [patients tests]. split; [exact Hp | ].
      apply NoDup_removeFirst. exact Ht.
    - rewrite getPatientHistory_db. split; assumption.
    - rewrite getTestById_db. split; assumption. }
  split; [exact Hstep | ].
  intro reqs.
  assert (uniqueIds emptyDb) as H0 by (split; constructor).
  revert H0. generalize emptyDb.
  induction reqs as [ | [env req] rest IH]; simpl; intros db H.
  - exact H.
  - apply IH. apply Hstep. exact H.
Qed.

Lemma router_keeps_ids_unique_witness :
  uniqueIds
    (fst (router (mkEnv 3000 3%N)
            (POST_patients_id_tests 1%N (bloodPressure "200/70")) Ward.db1)).
Proof.
  apply (proj1 router_keeps_ids_unique (mkEnv 3000 3%N)
           (POST_patients_id_tests 1%N (bloodPressure "200/70")) Ward.db1).
  split; simpl; (constructor; [intros [] | constructor]).
Defined.

(** X13: the routes registered with [router.get] write nothing, and their
    answer depends neither on the clock nor on the generated document id. *)
Theorem get_routes_read_only :
  forall (env env' : Env) (req : Request) (db : Db),
    isGet req = true ->
    fst (router env req db) = db
    /\ router env' req db = router env req db.
Proof.
  intros env env' req db H.
  destruct req; try discriminate H; cbn [router]; split; try reflexivity.
  - rewrite getPatientById_eq. reflexivity.
  - apply getPatientHistory_db.
  - apply getTestById_db.
Qed.

Lemma get_routes_read_only_witness :
  fst (router (mkEnv 1 1%N) (GET_patients_id_history 1%N) Ward.db1) = Ward.db1
  /\ router (mkEnv 2 2%N) (GET_patients_id_history 1%N) Ward.db1 =
     router (mkEnv 1 1%N) (GET_patients_id_history 1%N) Ward.db1.
Proof.
  apply (get_routes_read_only (mkEnv 1 1%N) (mkEnv 2 2%N)
           (GET_patients_id_history 1%N) Ward.db1).
  reflexivity.
Defined.

Lemma router_outcome (env : Env) (req : Request) (db : Db) :
  isAddTest req = false ->
  exists r, snd (router env req db) = Normal r
            /\ (fst (router env req db) = db \/ status r = 200 \/ status r = 201).
Proof.
  intro Hreq. destruct req; try discriminate Hreq; cbn [router].
  - unfold addPatient, tryCatch, bind, Patient.save.
    destruct (Body.name body) as [n | ], (Body.age body) as [a | ],
      (Body.gender body) as [g | ];
      try (eexists; split; [reflexivity | left; reflexivity]).
    destruct (nonEmpty n && nonEmpty g);
      [ | eexists; split; [reflexivity | left; reflexivity]].
    destruct (existsb (Patient.hasId (oid env)) (patients db));
      eexists; (split; [reflexivity | ]); [left | right; right]; reflexivity.
  - eexists; split; [reflexivity | left; reflexivity].
  - eexists; split; [reflexivity | left; reflexivity].
  - rewrite getPatientById_eq. eexists; split; [reflexivity | left; reflexivity].
  - unfold updatePatient, tryCatch, bind, Patient.findByIdAndUpdate.
    destruct (true && negb (Patient.validateUpdate body));
      [eexists; split; [reflexivity | left; reflexivity] | ].
    destruct (List.find (Patient.hasId id) (patients db));
      eexists; (split; [reflexivity | ]); [right; left | left]; reflexivity.
  - unfold deletePatient, tryCatch, bind, Patient.findByIdAndDelete.
    destruct (List.find (Patient.hasId id) (patients db));
      eexists; (split; [reflexivity | ]); [right; left | left]; reflexivity.
  - rewrite getTestsForPatient_eq. eexists; split; [reflexivity | left; reflexivity].
  - unfold updateTest, tryCatch, bind, Test.findByIdAndUpdate.
    destruct (true && negb (Test.validateUpdate body));
      [eexists; split; [reflexivity | left; reflexivity] | ].
    destruct (List.find (Test.hasId testId) (tests db));
      eexists; (split; [reflexivity | ]); [right; left | left]; reflexivity.
  - unfold updateTestOperators, tryCatch, bind, Test.findByIdAndUpdateOperators.
    destruct (true && negb (Test.validateUpdate (Body.op_set body)));
      [eexists; split; [reflexivity | left; reflexivity] | ].
    destruct (Test.conflicting body);
      [eexists; split; [reflexivity | left; reflexivity] | ].
    destruct (List.find (Test.hasId testId) (tests db));
      eexists; (split; [reflexivity | ]); [right; left | left]; reflexivity.
  - unfold deleteTest, tryCatch, bind, Test.findByIdAndDelete.
    destruct (List.find (Test.hasId testId) (tests db));
      eexists; (split; [reflexivity | ]); [right; left | left]; reflexivity.
  - rewrite getPatientHistory_db.
    destruct (router_returns env (GET_patients_id_history id) db) as [r Hr].
    exists r. split; [exact Hr | left; reflexivity].
  - rewrite getTestById_eq. eexists; split; [reflexivity | left; reflexivity].
Qed.

(** X14: for every route but add-test, no handler lets an exception
    escape, and a request that is answered 400 or 404 has written nothing: a
    write is always answered 200 or 201.  (Add-test is left out: its catch
    also covers the recomputation, which runs after the test is stored.) *)
Theorem errors_write_nothing :
  forall (env : Env) (req : Request) (db : Db),
    isAddTest req = false ->
    exists r : Response,
      snd (router env req db) = Normal r
      /\ (status r = 400 \/ status r = 404 -> fst (router env req db) = db).
Proof.
  intros env req db Hreq.
  destruct (router_outcome env req db Hreq) as (r & Hr & Hw).
  exists r. split; [exact Hr | ].
  intros [E | E]; destruct Hw as [Hw | [Hw | Hw]]; trivial;
    rewrite E in Hw; discriminate Hw.
Qed.

Lemma errors_write_nothing_witness :
  exists r : Response,
    snd (router (mkEnv 2500 0%N)
           (PUT_patients_id_tests_testId 1%N 2%N
              (Body.mkTest None None (Some "Heart Rate") None)) Ward.db1) = Normal r
    /\ (status r = 400 \/ status r = 404 ->
        fst (router (mkEnv 2500 0%N)
               (PUT_patients_id_tests_testId 1%N 2%N
                  (Body.mkTest None None (Some "Heart Rate") None)) Ward.db1) = Ward.db1).
Proof.
  apply (errors_write_nothing (mkEnv 2500 0%N)
           (PUT_patients_id_tests_testId 1%N 2%N
              (Body.mkTest None None (Some "Heart Rate") None)) Ward.db1).
  reflexivity.
Defined.
